(** * gcbase frontend: items page, item details and the Add Item form

    A shallow embedding of the request / cache / mutation orchestration of
    [frontend/src/routes/_layout/items.tsx], [components/Items/AddItem.tsx],
    [components/Common/Navbar.tsx] and the generated client
    [client/services.gen.ts].

    A page number is an integer-valued JavaScript number, held as a [Z];
    arithmetic on it rounds as double precision does.  Strings are
    [string]; [null] / [undefined] are [None].
    Event handlers are functions in a small state-and-trace monad: they
    read and update the component state and append the observable effects
    (HTTP requests, cache invalidations, notifications) to a trace. *)

From Stdlib Require Import ZArith List String Bool Lia.
Import ListNotations.
Local Open Scope string_scope.
Local Open Scope Z_scope.

(** ** JavaScript numbers *)

Module JsNumber.

(** The result of arithmetic on integer-valued numbers: an integer that a
    double holds exactly, or an infinity. *)
Inductive number :=
| Finite (z : Z)
| Infinity (negative : bool).

(** Integers up to this magnitude, 2^53, are all held exactly. *)
Definition exact_limit : Z := 2 ^ 53.

(** Magnitudes from this one on, 2^1024, are beyond every double. *)
Definition overflow : Z := 2 ^ 1024.

(** The integer nearest to [z] that a double holds exactly.  Up to 2^53
    in magnitude that is [z] itself; beyond, the significand is cut to 53
    bits, to the nearest value, a tie going to the even significand. *)
Definition nearest (z : Z) : Z :=
  let a := Z.abs z in
  if a <=? exact_limit then z
  else
    let sh := Z.log2 a - 52 in
    let q := a / 2 ^ sh in
    let r := a mod 2 ^ sh in
    let half := 2 ^ (sh - 1) in
    let q' :=
      if r <? half then q
      else if half <? r then q + 1
      else if Z.even q then q else q + 1 in
    Z.sgn z * (q' * 2 ^ sh).

(** Rounding an exact integer result: what rounds to 2^1024 or beyond
    overflows. *)
Definition round (z : Z) : number :=
  let n := nearest z in
  if overflow <=? Z.abs n then Infinity (n <? 0) else Finite n.

(** [a + b] and [a - b].  The table applies them to a page and 1; the
    result of that stays an integer, as the largest double absorbs 1. *)
Definition add (a b : Z) : Z := nearest (a + b).
Definition sub (a b : Z) : Z := nearest (a - b).

(** [a * b] *)
Definition mul (a b : Z) : number := round (a * b).

End JsNumber.

(** ** The generated HTTP client, [client/services.gen.ts] *)

Module Client.

Inductive Method := GET | POST | PUT | PATCH | DELETE.

(** [ItemCreate], the request body of [createItem] and the value type of
    the Add Item form. *)
Record ItemCreate := {
  title : string;
  description : string;
  type : string }.

(** [LogCreate], the request body of [createItemLog]. *)
Record LogCreate := {
  item_id : string;
  message : string }.

Inductive Body :=
| ItemBody (d : ItemCreate)
| LogBody (l : LogCreate).

(** The options object handed to [__request(OpenAPI, ...)]; a field the
    call site leaves out is [None] or the empty list.  A query parameter
    whose value is [undefined] is [None]. *)
Record ApiRequestOptions := {
  method : Method;
  url : string;
  path : list (string * string);
  query : list (string * option JsNumber.number);
  body : option Body;
  mediaType : option string;
  errors : list (Z * string) }.

Definition validation_error : list (Z * string) := [(422, "Validation Error")].

(** [ItemsReadItemsData]: both fields are optional. *)
Record ItemsReadItemsData := {
  skip : option JsNumber.number;
  limit : option JsNumber.number }.

Module ItemsService.

Definition readItems (data : ItemsReadItemsData) : ApiRequestOptions :=
  {| method := GET;
     url := "/api/v1/items/";
     path := [];
     query := [("skip", skip data); ("limit", limit data)];
     body := None;
     mediaType := None;
     errors := validation_error |}.

Definition createItem (requestBody : ItemCreate) : ApiRequestOptions :=
  {| method := POST;
     url := "/api/v1/items/";
     path := [];
     query := [];
     body := Some (ItemBody requestBody);
     mediaType := Some "application/json";
     errors := validation_error |}.

Definition moveItem (itemId newLocation : string) : ApiRequestOptions :=
  {| method := PUT;
     url := "/api/v1/items/move/{item_id}_{new_location}";
     path := [("new_location", newLocation); ("item_id", itemId)];
     query := [];
     body := None;
     mediaType := None;
     errors := validation_error |}.

Definition readItemLogs (itemId : string) : ApiRequestOptions :=
  {| method := GET;
     url := "/api/v1/items/logs/{item_id}";
     path := [("item_id", itemId)];
     query := [];
     body := None;
     mediaType := None;
     errors := validation_error |}.

Definition createItemLog (requestBody : LogCreate) : ApiRequestOptions :=
  {| method := POST;
     url := "/api/v1/items/logs/{item_id}";
     path := [];
     query := [];
     body := Some (LogBody requestBody);
     mediaType := Some "application/json";
     errors := validation_error |}.

Definition getTypes : ApiRequestOptions :=
  {| method := GET;
     url := "/api/v1/items/types/";
     path := [];
     query := [];
     body := None;
     mediaType := None;
     errors := [] |}.

End ItemsService.

Module LocationsService.

Definition readLocations : ApiRequestOptions :=
  {| method := GET;
     url := "/api/v1/locations/";
     path := [];
     query := [];
     body := None;
     mediaType := None;
     errors := [] |}.

End LocationsService.

(** The payloads the views read.  Only the fields the views touch are
    kept. *)
Record ItemPublic := {
  id : string;
  item_title : string;
  item_description : option string;
  item_type : option string;
  status : option string;
  location_id : option string }.

Record ItemsPublic := {
  data : list ItemPublic;
  count : Z }.

Record LogPublic := {
  date : option string;
  operator_name : string;
  log_message : string }.

Record ItemLogsPublic := {
  logs : list LogPublic;
  logs_count : Z }.

(** What a rejected promise carries: a plain [Error] thrown by the view
    code, or the client's [ApiError] with its HTTP status. *)
Inductive Failure :=
| Error (msg : string)
| ApiError (http_status : Z) (statusText : string).

End Client.

Import Client.

(** ** The route's search parameters, [itemsSearchSchema] and [setPage] *)

Module Route.

(** A value found in the parsed URL search object.  [JUndefined] is what
    reading an absent key gives.  [JNumber n] is the number with the
    integer value [n].  [JNaN] is kept apart from the numbers because the
    schema library classifies it as its own type. *)
#[local] Unset Elimination Schemes.
Inductive JsValue :=
| JUndefined
| JNull
| JBool (b : bool)
| JNaN
| JNumber (n : Z)
| JString (s : string)
| JArray (elems : list JsValue)
| JObject (fields : list (string * JsValue)).
#[local] Set Elimination Schemes.

Definition SearchObject : Type := list (string * JsValue).

(** [o[k]] *)
Fixpoint lookup (k : string) (o : SearchObject) : JsValue :=
  match o with
  | [] => JUndefined
  | (k', v) :: rest => if String.eqb k k' then v else lookup k rest
  end.

(** [{ ...o, [k]: v }]: an existing key keeps its place and takes the new
    value, a new key goes last. *)
Fixpoint assign (k : string) (v : JsValue) (o : SearchObject) : SearchObject :=
  match o with
  | [] => [(k, v)]
  | (k', v') :: rest =>
      if String.eqb k k' then (k', v) :: rest else (k', v') :: assign k v rest
  end.

(** [z.number()]: accepts numbers only; [None] is a parse failure. *)
Definition z_number (v : JsValue) : option Z :=
  match v with
  | JNumber n => Some n
  | _ => None
  end.

(** [schema.catch(fallback)] *)
Definition z_catch {A} (schema : JsValue -> option A) (fallback : A)
    (v : JsValue) : A :=
  match schema v with
  | Some a => a
  | None => fallback
  end.

Record ItemsSearch := { page : Z }.

(** [itemsSearchSchema.parse]: [None] stands for the thrown [ZodError],
    which only an input that is not an object causes.  Keys outside the
    shape are stripped. *)
Definition itemsSearchSchema_parse (input : JsValue) : option ItemsSearch :=
  match input with
  | JObject o => Some {| page := z_catch z_number 1 (lookup "page" o) |}
  | _ => None
  end.

(** [validateSearch]: the router hands it the search object. *)
Definition validateSearch (search : SearchObject) : option ItemsSearch :=
  itemsSearchSchema_parse (JObject search).

(** [Route.useSearch()]: the search of the URL with the validated keys laid
    over it, so a key of the URL that the schema does not name is still
    there. *)
Definition useSearch (raw : SearchObject) : option SearchObject :=
  match validateSearch raw with
  | Some v => Some (assign "page" (JNumber (page v)) raw)
  | None => None
  end.

(** [setPage]: the [search] updater given to [navigate]. *)
Definition setPage (page : Z) (prev : SearchObject) : SearchObject :=
  assign "page" (JNumber page) prev.

End Route.

(** ** Query keys, effects and the handler monad *)

(** An element of a query key: a string such as ["items"] or an item id,
    or the search object [{ page }]. *)
Inductive KeyPart :=
| KStr (s : string)
| KPage (page : Z).

Definition QueryKey := list KeyPart.

Definition KeyPart_eqb (a b : KeyPart) : bool :=
  match a, b with
  | KStr s, KStr t => String.eqb s t
  | KPage p, KPage q => Z.eqb p q
  | _, _ => false
  end.

(** An element of the key given to [invalidateQueries]: an element as a
    query key has them, or a whole search object. *)
Inductive FilterPart :=
| FKey (k : KeyPart)
| FObject (o : Route.SearchObject).

(** The options object of a query.  [queryFn] is the request the thunk
    issues when the cache runs it. *)
Record QueryOptions := {
  queryFn : ApiRequestOptions;
  queryKey : QueryKey }.

Inductive Effect :=
| Request (r : ApiRequestOptions)
| PrefetchQuery (o : QueryOptions)
| InvalidateQueries (k : QueryKey)
| InvalidateQueriesWith (f : list FilterPart)
| ShowToast (toast_title toast_description toast_status : string)
| HandleError (err : Failure)
| ConsoleLog (err : Failure).

Definition is_request (e : Effect) : bool :=
  match e with Request _ => true | _ => false end.

Definition is_invalidation (e : Effect) : bool :=
  match e with
  | InvalidateQueries _ | InvalidateQueriesWith _ => true
  | _ => false
  end.

Definition requests (tr : list Effect) : list Effect := filter is_request tr.
Definition invalidations (tr : list Effect) : list Effect := filter is_invalidation tr.

Section Handler.

Context {S : Type}.

(** A handler returns a value, the next state and the effects it
    performed, in order. *)
Definition handler (A : Type) : Type := S -> A * S * list Effect.

Definition ret {A} (a : A) : handler A := fun s => (a, s, []).

Definition bind {A B} (m : handler A) (k : A -> handler B) : handler B :=
  fun s =>
    let '(a, s1, t1) := m s in
    let '(b, s2, t2) := k a s1 in
    (b, s2, (t1 ++ t2)%list).

Definition get : handler S := fun s => (s, s, []).
Definition modify (f : S -> S) : handler unit := fun s => (tt, f s, []).
Definition emit (e : Effect) : handler unit := fun s => (tt, s, [e]).

End Handler.

Declare Scope handler_scope.
Delimit Scope handler_scope with handler.
Notation "x <- m ;; k" := (bind m (fun x => k))
  (at level 61, m at next level, right associativity) : handler_scope.
Notation "m ;; k" := (bind m (fun _ => k))
  (at level 61, right associativity) : handler_scope.
Local Open Scope handler_scope.

(** ** The items table, [ItemsTable] in [routes/_layout/items.tsx] *)

Module ItemsTable.

Definition PER_PAGE : Z := 5.

Definition getItemsQueryOptions (page : Z) : QueryOptions :=
  {| queryFn :=
       ItemsService.readItems
         {| skip := Some (JsNumber.mul (JsNumber.sub page 1) PER_PAGE);
            limit := Some (JsNumber.Finite PER_PAGE) |};
     queryKey := [KStr "items"; KPage page] |}.

(** [page + 1] *)
Definition nextPage (page : Z) : Z := JsNumber.add page 1.

(** The part of a [useQuery] result the table destructures. *)
Record QueryResult := {
  items : option ItemsPublic;
  isPending : bool;
  isPlaceholderData : bool }.

(** [useQuery] with a [placeholderData] function: [cached] is the cache
    entry of the current key, [prevData] the data of the last key that had
    some.  While the current key has no data, the placeholder, when it is
    defined, is shown and flagged. *)
Definition useQuery (placeholderData : option ItemsPublic -> option ItemsPublic)
    (cached prevData : option ItemsPublic) : QueryResult :=
  match cached with
  | Some d => {| items := Some d; isPending := false; isPlaceholderData := false |}
  | None =>
      match placeholderData prevData with
      | Some d => {| items := Some d; isPending := false; isPlaceholderData := true |}
      | None => {| items := None; isPending := true; isPlaceholderData := false |}
      end
  end.

(** [!isPlaceholderData && items?.data.length === PER_PAGE]; with
    [items] undefined the comparison is [undefined === 5]. *)
Definition hasNextPage (isPlaceholderData : bool) (items : option ItemsPublic) : bool :=
  negb isPlaceholderData &&
  match items with
  | Some i => Z.of_nat (List.length (data i)) =? PER_PAGE
  | None => false
  end.

Definition hasPreviousPage (page : Z) : bool := 1 <? page.

(** The body of the effect: prefetch only behind the guard. *)
Definition prefetchEffect (page : Z) (hasNext : bool) : list Effect :=
  if hasNext then [PrefetchQuery (getItemsQueryOptions (nextPage page))] else [].

(** Dependency array [[page, queryClient, hasNextPage]]; the query client
    is stable over the life of the component. *)
Definition Deps : Type := Z * bool.

Definition Deps_eqb (a b : Deps) : bool :=
  Z.eqb (fst a) (fst b) && Bool.eqb (snd a) (snd b).

(** [useEffect]: the effect runs after the first render and after each
    render whose dependencies differ from the previous render's. *)
Definition useEffect (last : option Deps) (deps : Deps) (eff : list Effect)
  : list Effect :=
  match last with
  | None => eff
  | Some d => if Deps_eqb d deps then [] else eff
  end.

Inductive TableBody :=
| Skeleton
| Rows (rows : list ItemPublic) (dimmed : bool).

Record Render := {
  subscribed : QueryOptions;
  tbody : TableBody;
  footer_page : Z;
  footer_hasNextPage : bool;
  footer_hasPreviousPage : bool;
  effects : list Effect;
  deps : Deps }.

Definition render (page : Z) (cached prevData : option ItemsPublic)
    (last : option Deps) : Render :=
  let q := useQuery (fun prev => prev) cached prevData in
  let next := hasNextPage (isPlaceholderData q) (items q) in
  {| subscribed := getItemsQueryOptions page;
     tbody :=
       if isPending q then Skeleton
       else Rows (match items q with Some i => data i | None => [] end)
                 (isPlaceholderData q);
     footer_page := page;
     footer_hasNextPage := next;
     footer_hasPreviousPage := hasPreviousPage page;
     effects := useEffect last (page, next) (prefetchEffect page next);
     deps := (page, next) |}.

End ItemsTable.

(** ** The query client: cache, invalidation and mutations *)

Module ReactQuery.

Inductive QueryData :=
| ItemsData (d : ItemsPublic)
| LogsData (d : ItemLogsPublic)
| LocationsData (d : list (string * string))
| TypesData (d : list string).

Record Query := {
  key : QueryKey;
  state_data : QueryData;
  isInvalidated : bool }.

Definition QueryCache : Type := list Query.

(** A filter key matches every key it is a prefix of. *)
Fixpoint partialMatchKey (k filter : QueryKey) : bool :=
  match filter, k with
  | [], _ => true
  | f :: fs, a :: ks => KeyPart_eqb a f && partialMatchKey ks fs
  | _ :: _, [] => false
  end.

Definition invalidate (q : Query) : Query :=
  {| key := key q; state_data := state_data q; isInvalidated := true |}.

Definition invalidateMatching (filter : QueryKey) (c : QueryCache) : QueryCache :=
  map (fun q => if partialMatchKey (key q) filter then invalidate q else q) c.

Fixpoint getQueryData (k : QueryKey) (c : QueryCache) : option QueryData :=
  match c with
  | [] => None
  | q :: rest =>
      if partialMatchKey (key q) k && partialMatchKey k (key q)
      then Some (state_data q)
      else getQueryData k rest
  end.

(** The element [{ page: p }] of a cached key against the value [v] that a
    filter object holds under the key [k]: under [page] the same number,
    under any other key nothing. *)
Definition partialMatchField (p : Z) (k : string) (v : Route.JsValue) : bool :=
  if String.eqb k "page"
  then match v with Route.JNumber n => Z.eqb n p | _ => false end
  else match v with Route.JUndefined => true | _ => false end.

(** One element of a cached key against one element of a filter.  A filter
    object matches an object that has each of the filter's keys with the
    same value; it never matches a string. *)
Definition partialMatchPart (a : KeyPart) (f : FilterPart) : bool :=
  match f with
  | FKey k => KeyPart_eqb a k
  | FObject o =>
      match a with
      | KStr _ => false
      | KPage p =>
          forallb (fun kv => partialMatchField p (fst kv) (Route.lookup (fst kv) o)) o
      end
  end.

Fixpoint partialMatchFilter (k : QueryKey) (filter : list FilterPart) : bool :=
  match filter, k with
  | [], _ => true
  | f :: fs, a :: ks => partialMatchPart a f && partialMatchFilter ks fs
  | _ :: _, [] => false
  end.

Definition invalidateMatchingWith (filter : list FilterPart) (c : QueryCache)
  : QueryCache :=
  map (fun q => if partialMatchFilter (key q) filter then invalidate q else q) c.

(** A component state that holds the query client of [useQueryClient]. *)
Class HasQueryClient (S : Type) := {
  queries : S -> QueryCache;
  with_queries : QueryCache -> S -> S }.

(** [queryClient.invalidateQueries({ queryKey })] *)
Definition invalidateQueries {S} `{HasQueryClient S} (filter : QueryKey)
  : handler (S:=S) unit :=
  modify (fun s => with_queries (invalidateMatching filter (queries s)) s) ;;
  emit (InvalidateQueries filter).

(** [invalidateQueries] with a key that holds a search object. *)
Definition invalidateQueriesWith {S} `{HasQueryClient S} (filter : list FilterPart)
  : handler (S:=S) unit :=
  modify (fun s => with_queries (invalidateMatchingWith filter (queries s)) s) ;;
  emit (InvalidateQueriesWith filter).

(** What [mutationFn] returns: a request that has been sent and awaits
    its response, or a promise the function rejected itself. *)
Inductive Promise :=
| Sent (r : ApiRequestOptions)
| Rejected (e : Failure).

Inductive Outcome :=
| Fulfilled
| Failed (e : Failure).

Section Mutation.

Context {S V : Type}.

(** The options of [useMutation]; a callback the call site leaves out
    is [ret tt]. *)
Record MutationOptions := {
  mutationFn : V -> S -> Promise;
  onSuccess : handler (S:=S) unit;
  onError : Failure -> handler (S:=S) unit;
  onSettled : handler (S:=S) unit }.

(** The callbacks run when the promise settles. *)
Definition settle (m : MutationOptions) (o : Outcome) : handler unit :=
  match o with
  | Fulfilled => onSuccess m ;; onSettled m
  | Failed e => onError m e ;; onSettled m
  end.

(** [mutate(variables)]: every call runs [mutationFn] (no retry, no
    coalescing).  A sent request stays in flight and is returned; a
    promise rejected by [mutationFn] settles before the next event. *)
Definition mutate (m : MutationOptions) (v : V)
  : handler (option ApiRequestOptions) :=
  s <- get ;;
  match mutationFn m v s with
  | Sent r => emit (Request r) ;; ret (Some r)
  | Rejected e => settle m (Failed e) ;; ret None
  end.

End Mutation.

Arguments MutationOptions : clear implicits.

End ReactQuery.

Import ReactQuery.

(** ** [useDisclosure], as [Navbar] uses it to host the Add modal *)

Module Navbar.

Record Disclosure := { isOpen : bool }.

Definition onOpen (d : Disclosure) : Disclosure := {| isOpen := true |}.
Definition onClose (d : Disclosure) : Disclosure := {| isOpen := false |}.

End Navbar.

(** ** The Add Item form, [components/Items/AddItem.tsx] *)

Module AddItem.

Definition defaultValues : ItemCreate :=
  {| title := ""; description := ""; type := "other" |}.

Inductive Field := Title | Description | Type_.

Record FieldError := {
  error_type : string;
  error_message : string }.

(** The form state of [useForm], the disclosure that [Navbar] passes as
    [isOpen] / [onClose], the query client, and the bodies of the
    [createItem] requests whose responses have not arrived yet. *)
Record State := {
  values : ItemCreate;
  errors_title : option FieldError;
  isSubmitting : bool;
  isSubmitted : bool;
  modal : Navbar.Disclosure;
  cache : QueryCache;
  inflight : list ItemCreate }.

Definition with_values (v : ItemCreate) (s : State) : State :=
  {| values := v; errors_title := errors_title s; isSubmitting := isSubmitting s;
     isSubmitted := isSubmitted s; modal := modal s; cache := cache s; inflight := inflight s |}.

Definition with_errors_title (e : option FieldError) (s : State) : State :=
  {| values := values s; errors_title := e; isSubmitting := isSubmitting s;
     isSubmitted := isSubmitted s; modal := modal s; cache := cache s; inflight := inflight s |}.

Definition with_isSubmitting (b : bool) (s : State) : State :=
  {| values := values s; errors_title := errors_title s; isSubmitting := b;
     isSubmitted := isSubmitted s; modal := modal s; cache := cache s; inflight := inflight s |}.

Definition with_isSubmitted (b : bool) (s : State) : State :=
  {| values := values s; errors_title := errors_title s; isSubmitting := isSubmitting s;
     isSubmitted := b; modal := modal s; cache := cache s; inflight := inflight s |}.

Definition with_modal (d : Navbar.Disclosure) (s : State) : State :=
  {| values := values s; errors_title := errors_title s; isSubmitting := isSubmitting s;
     isSubmitted := isSubmitted s; modal := d; cache := cache s; inflight := inflight s |}.

Definition with_cache (c : QueryCache) (s : State) : State :=
  {| values := values s; errors_title := errors_title s; isSubmitting := isSubmitting s;
     isSubmitted := isSubmitted s; modal := modal s; cache := c; inflight := inflight s |}.

Definition with_inflight (l : list ItemCreate) (s : State) : State :=
  {| values := values s; errors_title := errors_title s; isSubmitting := isSubmitting s;
     isSubmitted := isSubmitted s; modal := modal s; cache := cache s; inflight := l |}.

#[export] Instance State_HasQueryClient : HasQueryClient State :=
  {| queries := cache; with_queries := with_cache |}.

(** [register("title", { required: "Title is required." })]: the rule
    fails on the empty string. *)
Definition validate_title (v : string) : option FieldError :=
  if String.eqb v ""
  then Some {| error_type := "required"; error_message := "Title is required." |}
  else None.

(** [reset()]: back to [defaultValues], with a clean form state. *)
Definition reset : handler (S:=State) unit :=
  modify (fun s =>
    with_isSubmitted false
      (with_isSubmitting false (with_errors_title None (with_values defaultValues s)))).

Definition onClose : handler (S:=State) unit :=
  modify (fun s => with_modal (Navbar.onClose (modal s)) s).

Definition showToast (t d st : string) : handler (S:=State) unit :=
  emit (ShowToast t d st).

Definition mutation : MutationOptions State ItemCreate :=
  {| mutationFn := fun data _ => Sent (ItemsService.createItem data);
     onSuccess :=
       showToast "Success!" "Item created successfully." "success" ;;
       reset ;;
       onClose;
     onError := fun err => emit (HandleError err);
     onSettled := invalidateQueries [KStr "items"] |}.

(** [onSubmit]: [mutation.mutate(data)].  The call returns as soon as the
    request is sent; the request is remembered as in flight. *)
Definition onSubmit (data : ItemCreate) : handler (S:=State) unit :=
  r <- mutate mutation data ;;
  match r with
  | Some _ => modify (fun s => with_inflight (inflight s ++ [data]) s)
  | None => ret tt
  end.

(** [handleSubmit(onValid)]: [isSubmitting] is raised, the registered
    rules are checked, [onValid] is called and awaited when no rule
    failed, and [isSubmitting] is lowered, with [isSubmitted] raised.
    [onValid] returns no promise here, so all of this happens before the
    next event is handled. *)
Definition handleSubmit (onValid : ItemCreate -> handler (S:=State) unit)
  : handler (S:=State) unit :=
  modify (with_isSubmitting true) ;;
  s <- get ;;
  match validate_title (title (values s)) with
  | None => modify (with_errors_title None) ;; onValid (values s)
  | Some e => modify (with_errors_title (Some e))
  end ;;
  modify (fun s => with_isSubmitted true (with_isSubmitting false s)).

(** The Save button: [isLoading={isSubmitting}] disables it. *)
Definition saveDisabled (s : State) : bool := isSubmitting s.

(** [FormControl isRequired] puts [required] on the title input, and the
    form does not switch the browser's own validation off: a submission is
    let through to the form's handler only when the title has a value. *)
Definition nativeValid (s : State) : bool := negb (String.eqb (title (values s)) "").

Definition setValue (f : Field) (v : string) (d : ItemCreate) : ItemCreate :=
  match f with
  | Title => {| title := v; description := description d; type := type d |}
  | Description => {| title := title d; description := v; type := type d |}
  | Type_ => {| title := title d; description := description d; type := v |}
  end.

(** Validation of a field when it changes ([onBlur] false) or is left
    ([onBlur] true).  The form validates on blur; once a submission has
    gone through it validates on change instead.  Only the title has a
    rule. *)
Definition revalidate (f : Field) (onBlur : bool) : handler (S:=State) unit :=
  s <- get ;;
  match f with
  | Title =>
      if Bool.eqb onBlur (negb (isSubmitted s))
      then modify (with_errors_title (validate_title (title (values s))))
      else ret tt
  | _ => ret tt
  end.

Inductive Event :=
| Open                            (* the navbar's Add button *)
| Change (f : Field) (v : string) (* typing into a field *)
| Blur (f : Field)                (* leaving a field; the form validates on blur *)
| Submit                          (* submitting the form with the Save button *)
| Cancel                          (* Cancel or the close button *)
| Settled (o : Outcome).          (* the oldest request in flight settles *)

Definition step (e : Event) : handler (S:=State) unit :=
  s <- get ;;
  match e with
  | Open => modify (with_modal (Navbar.onOpen (modal s)))
  | Change f v =>
      if Navbar.isOpen (modal s)
      then modify (with_values (setValue f v (values s))) ;; revalidate f false
      else ret tt
  | Blur f =>
      if Navbar.isOpen (modal s)
      then revalidate f true
      else ret tt
  | Submit =>
      if Navbar.isOpen (modal s) && negb (saveDisabled s) && nativeValid s
      then handleSubmit onSubmit
      else ret tt
  | Cancel => if Navbar.isOpen (modal s) then onClose else ret tt
  | Settled o =>
      match inflight s with
      | [] => ret tt
      | _ :: rest => modify (with_inflight rest) ;; settle mutation o
      end
  end.

Fixpoint run (es : list Event) : handler (S:=State) unit :=
  match es with
  | [] => ret tt
  | e :: rest => step e ;; run rest
  end.

(** The state and the trace a handler leaves. *)
Definition state_of {A} (r : A * State * list Effect) : State := snd (fst r).
Definition trace_of {A} (r : A * State * list Effect) : list Effect := snd r.

End AddItem.

(** ** The item details panel, [ItemDetails] in [routes/_layout/items.tsx] *)

Module ItemDetails.

(** A mutation whose request has been sent and has not settled. *)
Inductive Pending :=
| SendLog
| MoveItem (newLocation : string).

(** The selected item, the search object that [Route.useSearch()] returns,
    the two [useState] cells, the query client, and the mutations in
    flight. *)
Record State := {
  item : ItemPublic;
  currentPage : Route.SearchObject;
  newLocation : option string;
  newLogMessage : option string;
  cache : QueryCache;
  inflight : list Pending }.

Definition setNewLocation (v : option string) (s : State) : State :=
  {| item := item s; currentPage := currentPage s; newLocation := v;
     newLogMessage := newLogMessage s; cache := cache s; inflight := inflight s |}.

Definition setNewLogMessage (v : option string) (s : State) : State :=
  {| item := item s; currentPage := currentPage s; newLocation := newLocation s;
     newLogMessage := v; cache := cache s; inflight := inflight s |}.

Definition with_cache (c : QueryCache) (s : State) : State :=
  {| item := item s; currentPage := currentPage s; newLocation := newLocation s;
     newLogMessage := newLogMessage s; cache := c; inflight := inflight s |}.

Definition with_inflight (l : list Pending) (s : State) : State :=
  {| item := item s; currentPage := currentPage s; newLocation := newLocation s;
     newLogMessage := newLogMessage s; cache := cache s; inflight := l |}.

#[export] Instance State_HasQueryClient : HasQueryClient State :=
  {| queries := cache; with_queries := with_cache |}.

(** Truthiness of a [string | null]: [null] and the empty string are
    falsy. *)
Definition truthy (v : option string) : option string :=
  match v with
  | None => None
  | Some s => if String.eqb s "" then None else Some s
  end.

Definition logsKey (s : State) : QueryKey := [KStr "item_logs"; KStr (id (item s))].

Definition sendLogMutation : MutationOptions State unit :=
  {| mutationFn := fun _ s =>
       match truthy (newLogMessage s) with
       | None => Rejected (Error "No log message provided")
       | Some m =>
           Sent (ItemsService.createItemLog
                   {| item_id := id (item s); message := m |})
       end;
     onSuccess :=
       s <- get ;;
       invalidateQueries (logsKey s) ;;
       emit (ShowToast "Success!" "Log created successfully." "success") ;;
       modify (setNewLogMessage (Some ""));
     onError := fun err => emit (ConsoleLog err) ;; emit (HandleError err);
     onSettled := ret tt |}.

Definition moveItemMutation : MutationOptions State string :=
  {| mutationFn := fun newLocation s =>
       Sent (ItemsService.moveItem (id (item s)) newLocation);
     onSuccess :=
       s <- get ;;
       invalidateQueries (logsKey s) ;;
       invalidateQueriesWith [FKey (KStr "items"); FObject (currentPage s)];
     onError := fun err => emit (HandleError err);
     onSettled := ret tt |}.

(** [sendLogMutation.mutate()] with the bookkeeping of what is in
    flight. *)
Definition sendLog : handler (S:=State) unit :=
  r <- mutate sendLogMutation tt ;;
  match r with
  | Some _ => modify (fun s => with_inflight (inflight s ++ [SendLog]) s)
  | None => ret tt
  end.

Definition moveItem (newLocation : string) : handler (S:=State) unit :=
  r <- mutate moveItemMutation newLocation ;;
  match r with
  | Some _ => modify (fun s => with_inflight (inflight s ++ [MoveItem newLocation]) s)
  | None => ret tt
  end.

Record KeyboardEvent := {
  key : string;
  ctrlKey : bool;
  shiftKey : bool;
  altKey : bool;
  metaKey : bool }.

(** The textarea's [onKeyDown]. *)
Definition onKeyDown (e : KeyboardEvent) : handler (S:=State) unit :=
  if String.eqb (key e) "Enter" && ctrlKey e then sendLog else ret tt.

(** The send button's [onClick]. *)
Definition onClickSend : handler (S:=State) unit := sendLog.

(** The Move Item button's [onClick]: [newLocation && mutate(newLocation)]. *)
Definition onClickMove : handler (S:=State) unit :=
  s <- get ;;
  match truthy (newLocation s) with
  | Some l => moveItem l
  | None => ret tt
  end.

(** The composer is rendered only when the log query has data with a
    positive count; otherwise the panel shows "No logs available." *)
Definition composerRendered (s : State) : bool :=
  match getQueryData (logsKey s) (cache s) with
  | Some (LogsData d) => 0 <? logs_count d
  | _ => false
  end.

Definition settlePending (p : Pending) (o : Outcome) : handler (S:=State) unit :=
  match p with
  | SendLog => settle sendLogMutation o
  | MoveItem _ => settle moveItemMutation o
  end.

Inductive Event :=
| ChangeLog (v : string)          (* typing into the textarea *)
| KeyDown (e : KeyboardEvent)     (* a key pressed in the textarea *)
| ClickSend                       (* the send button *)
| SelectLocation (v : string)     (* the location select *)
| ClickMove                       (* the Move Item button *)
| Settled (o : Outcome).          (* the oldest mutation in flight settles *)

Definition step (e : Event) : handler (S:=State) unit :=
  s <- get ;;
  match e with
  | ChangeLog v =>
      if composerRendered s then modify (setNewLogMessage (Some v)) else ret tt
  | KeyDown k => if composerRendered s then onKeyDown k else ret tt
  | ClickSend => if composerRendered s then onClickSend else ret tt
  | SelectLocation v => modify (setNewLocation (Some v))
  | ClickMove => onClickMove
  | Settled o =>
      match inflight s with
      | [] => ret tt
      | p :: rest => modify (with_inflight rest) ;; settlePending p o
      end
  end.

Fixpoint run (es : list Event) : handler (S:=State) unit :=
  match es with
  | [] => ret tt
  | e :: rest => step e ;; run rest
  end.

Definition state_of {A} (r : A * State * list Effect) : State := snd (fst r).
Definition trace_of {A} (r : A * State * list Effect) : list Effect := snd r.

End ItemDetails.

(** ** The cells of a table row, [ItemsTable] in [routes/_layout/items.tsx] *)

Module ItemRow.











Definition titleCell (item : ItemPublic) : string := item_title item.




End ItemRow.

(** ** Reading a request back *)

(** The value a request carries for a query parameter. *)
Fixpoint query_param (name : string) (q : list (string * option JsNumber.number))
  : option JsNumber.number :=
  match q with
  | [] => None
  | (k, v) :: rest => if String.eqb name k then v else query_param name rest
  end.

(** Item index [n] (counted from 0) lies in the window that the query of
    page [p] asks for. *)
Definition in_window (n p : Z) : Prop :=
  exists a l : Z,
    query_param "skip" (query (queryFn (ItemsTable.getItemsQueryOptions p))) =
      Some (JsNumber.Finite a) /\
    query_param "limit" (query (queryFn (ItemsTable.getItemsQueryOptions p))) =
      Some (JsNumber.Finite l) /\
    a <= n < a + l.

(** The largest page whose offset [(p - 1) * 5] is computed exactly. *)
Definition last_exact_page : Z := 1801439850948199.

(** A request the Add Item form may send: [createItem] with a title. *)
Definition titled_createItem (e : Effect) : Prop :=
  is_request e = true ->
  exists d : ItemCreate, e = Request (ItemsService.createItem d) /\ title d <> "".

(** A request the mutations of the details panel may send: a log with a
    message, or a move to a named location. *)
Definition nonempty_write (e : Effect) : Prop :=
  is_request e = true ->
  (exists (i m : string),
      m <> "" /\
      e = Request (ItemsService.createItemLog {| item_id := i; message := m |})) \/
  (exists (i l : string), l <> "" /\ e = Request (ItemsService.moveItem i l)).

Definition is_submit (e : AddItem.Event) : bool :=
  match e with AddItem.Submit => true | _ => false end.

(** * Properties *)

(** ** Sample data used to exercise the statements *)

Definition sample_item (n : string) : ItemPublic :=
  {| id := n; item_title := "flask " ++ n; item_description := None;
     item_type := Some "other"; status := None; location_id := None |}.

Definition page_of (ids : list string) : ItemsPublic :=
  {| data := map sample_item ids; count := Z.of_nat (List.length ids) |}.

Definition full_page : ItemsPublic := page_of ["a"; "b"; "c"; "d"; "e"].
Definition short_page : ItemsPublic := page_of ["f"; "g"; "h"].

Definition sample_cache : QueryCache :=
  [ {| key := [KStr "items"; KPage 1]; state_data := ItemsData full_page;
       isInvalidated := false |};
    {| key := [KStr "item_logs"; KStr "a"];
       state_data := LogsData {| logs := [ {| date := None; operator_name := "ann";
                                              log_message := "created" |} ];
                                 logs_count := 1 |};
       isInvalidated := false |};
    {| key := [KStr "locations"]; state_data := LocationsData [("l1", "lab")];
       isInvalidated := false |} ].

Definition addItem_open (v : ItemCreate) : AddItem.State :=
  {| AddItem.values := v; AddItem.errors_title := None;
     AddItem.isSubmitting := false; AddItem.isSubmitted := false;
     AddItem.modal := {| Navbar.isOpen := true |};
     AddItem.cache := sample_cache; AddItem.inflight := [] |}.

Definition bike : ItemCreate :=
  {| title := "bike"; description := "blue"; type := "other" |}.

Definition details_state (msg : option string) : ItemDetails.State :=
  {| ItemDetails.item := sample_item "a";
     ItemDetails.currentPage := [("page", Route.JNumber 1)];
     ItemDetails.newLocation := Some "l1";
     ItemDetails.newLogMessage := msg;
     ItemDetails.cache := sample_cache;
     ItemDetails.inflight := [] |}.

Definition ctrl_enter : ItemDetails.KeyboardEvent :=
  {| ItemDetails.key := "Enter"; ItemDetails.ctrlKey := true;
     ItemDetails.shiftKey := false; ItemDetails.altKey := false;
     ItemDetails.metaKey := false |}.

Definition server_error : Failure := ApiError 500 "Internal Server Error".

(** The panel as it is when the URL is [/items?q=flask&page=1]. *)
Definition details_state_searching : ItemDetails.State :=
  {| ItemDetails.item := sample_item "a";
     ItemDetails.currentPage := [("q", Route.JString "flask"); ("page", Route.JNumber 1)];
     ItemDetails.newLocation := Some "l1";
     ItemDetails.newLogMessage := None;
     ItemDetails.cache := sample_cache;
     ItemDetails.inflight := [] |}.

(** ** Pagination *)

Lemma useQuery_fresh_iff (cached prevData : option ItemsPublic) (d : ItemsPublic) :
  let q := ItemsTable.useQuery (fun prev => prev) cached prevData in
  (ItemsTable.isPlaceholderData q = false /\ ItemsTable.items q = Some d) <->
  cached = Some d.
Proof.
  unfold ItemsTable.useQuery.
  destruct cached as [c|]; [|destruct prevData as [p|]]; cbn;
    intuition congruence.
Qed.

(** C1: [hasNextPage] is true exactly when the displayed data is not
    placeholder data and the page holds exactly 5 items; the footer of
    every render gets this value, which comes to: the cache holds a page of
    5 items for the current key.  A page of 3 items gives [false]. *)
Theorem hasNextPage_iff_fresh_full_page :
  (forall (isPlaceholderData : bool) (items : option ItemsPublic),
      ItemsTable.hasNextPage isPlaceholderData items = true <->
      (isPlaceholderData = false /\
       exists i, items = Some i /\ List.length (data i) = 5%nat)) /\
  (forall page cached prevData last,
      let q := ItemsTable.useQuery (fun prev => prev) cached prevData in
      let r := ItemsTable.render page cached prevData last in
      ItemsTable.footer_hasNextPage r =
        ItemsTable.hasNextPage (ItemsTable.isPlaceholderData q) (ItemsTable.items q) /\
      (ItemsTable.footer_hasNextPage r = true <->
       exists d, cached = Some d /\ List.length (data d) = 5%nat)) /\
  (forall (isPlaceholderData : bool) (i : ItemsPublic),
      List.length (data i) = 3%nat ->
      ItemsTable.hasNextPage isPlaceholderData (Some i) = false).
Proof.
  assert (Hiff : forall ph its,
      ItemsTable.hasNextPage ph its = true <->
      (ph = false /\ exists i, its = Some i /\ List.length (data i) = 5%nat)).
  { intros ph its. unfold ItemsTable.hasNextPage, ItemsTable.PER_PAGE.
    rewrite andb_true_iff, negb_true_iff. split.
    - intros [Hph Hlen]. split; [exact Hph|].
      destruct its as [i|]; [|discriminate].
      exists i. split; [reflexivity|]. apply Z.eqb_eq in Hlen. lia.
    - intros [Hph [i [-> Hlen]]]. split; [exact Hph|].
      apply Z.eqb_eq. lia. }
  split; [exact Hiff|split].
  - intros page cached prevData last q r. split; [reflexivity|].
    subst r. cbn [ItemsTable.render ItemsTable.footer_hasNextPage].
    rewrite Hiff. split.
    + intros [Hph [i [Hi Hlen]]]. exists i. split; [|exact Hlen].
      apply (useQuery_fresh_iff cached prevData i). split; assumption.
    + intros [d [Hd Hlen]].
      apply (useQuery_fresh_iff cached prevData d) in Hd. destruct Hd as [Hph Hi].
      split; [exact Hph|]. exists d. split; assumption.
  - intros ph i Hlen. unfold ItemsTable.hasNextPage, ItemsTable.PER_PAGE.
    rewrite Hlen. apply andb_false_r.
Qed.

Lemma hasNextPage_iff_fresh_full_page_witness :
  ItemsTable.hasNextPage false (Some full_page) = true /\
  ItemsTable.hasNextPage false (Some short_page) = false.
Proof.
  destruct hasNextPage_iff_fresh_full_page as [Hiff [_ Hshort]].
  split.
  - apply Hiff. split; [reflexivity|].
    exists full_page. split; reflexivity.
  - apply Hshort. reflexivity.
Defined.

Lemma exact_limit_below_overflow : JsNumber.exact_limit < JsNumber.overflow.
Proof. reflexivity. Qed.

Lemma nearest_exact (z : Z) :
  Z.abs z <= JsNumber.exact_limit -> JsNumber.nearest z = z.
Proof.
  intros Hz. unfold JsNumber.nearest. cbv zeta.
  now rewrite (proj2 (Z.leb_le _ _) Hz).
Qed.

Lemma round_exact (z : Z) :
  Z.abs z <= JsNumber.exact_limit -> JsNumber.round z = JsNumber.Finite z.
Proof.
  intros Hz. unfold JsNumber.round. cbv zeta. rewrite (nearest_exact z Hz).
  pose proof exact_limit_below_overflow as Hlt.
  destruct (Z.leb_spec JsNumber.overflow (Z.abs z)); [lia | reflexivity].
Qed.

Lemma exact_limit_value : JsNumber.exact_limit = 9007199254740992.
Proof. reflexivity. Qed.

Lemma offset_exact (p : Z) :
  1 <= p <= last_exact_page ->
  JsNumber.mul (JsNumber.sub p 1) ItemsTable.PER_PAGE = JsNumber.Finite ((p - 1) * 5).
Proof.
  intros Hp. unfold last_exact_page in Hp.
  unfold JsNumber.mul, JsNumber.sub, ItemsTable.PER_PAGE.
  pose proof exact_limit_value as Hl.
  rewrite (nearest_exact (p - 1)) by lia.
  apply round_exact. lia.
Qed.




Lemma Deps_eqb_eq (a b : ItemsTable.Deps) :
  ItemsTable.Deps_eqb a b = true <-> a = b.
Proof.
  destruct a as [p h], b as [q k]. unfold ItemsTable.Deps_eqb. cbn.
  rewrite andb_true_iff, Z.eqb_eq, Bool.eqb_true_iff.
  split; [intros [-> ->]; reflexivity | intros H; inversion H; auto].
Qed.

Lemma useEffect_runs (last : option ItemsTable.Deps) (d : ItemsTable.Deps)
    (eff : list Effect) :
  last <> Some d -> ItemsTable.useEffect last d eff = eff.
Proof.
  intros Hne. destruct last as [l|]; cbn; [|reflexivity].
  destruct (ItemsTable.Deps_eqb l d) eqn:E; [|reflexivity].
  apply Deps_eqb_eq in E. subst l. now contradiction Hne.
Qed.

Lemma useEffect_skips (d : ItemsTable.Deps) (eff : list Effect) :
  ItemsTable.useEffect (Some d) d eff = [].
Proof.
  cbn. now rewrite (proj2 (Deps_eqb_eq d d) eq_refl).
Qed.

(** C7, as the spec words it, fails: the first render of page 1 with a
    fetched page of 3 items shows the rows and prefetches nothing. *)
Lemma short_page_render_prefetches_nothing :
  ItemsTable.tbody (ItemsTable.render 1 (Some short_page) None None) =
    ItemsTable.Rows (data short_page) false /\
  ItemsTable.footer_hasNextPage
    (ItemsTable.render 1 (Some short_page) None None) = false /\
  ItemsTable.effects (ItemsTable.render 1 (Some short_page) None None) = [].
Proof. repeat split. Qed.

Lemma nextPage_exact (page : Z) :
  1 <= page < last_exact_page -> ItemsTable.nextPage page = page + 1.
Proof.
  intros Hp. unfold last_exact_page in Hp. unfold ItemsTable.nextPage, JsNumber.add.
  pose proof exact_limit_value as Hl. apply nearest_exact. lia.
Qed.

(** C7, amended: a render prefetches the next page, [page + 1] as the
    table computes it, exactly when [hasNextPage] holds for it and the
    effect is due, that is on the first render or when [page] or
    [hasNextPage] differ from the previous render's; otherwise it
    prefetches nothing.  For an integer page from 1 to 1801439850948198
    the prefetched query has the key of page [page + 1] and asks for
    [skip = page * 5], [limit = 5]. *)
Theorem prefetch_next_page_iff_hasNextPage :
  forall page cached prevData last,
    let r := ItemsTable.render page cached prevData last in
    (ItemsTable.footer_hasNextPage r = true ->
     last <> Some (ItemsTable.deps r) ->
     ItemsTable.effects r =
       [PrefetchQuery (ItemsTable.getItemsQueryOptions (ItemsTable.nextPage page))]) /\
    (ItemsTable.footer_hasNextPage r = false \/ last = Some (ItemsTable.deps r) ->
     ItemsTable.effects r = []) /\
    (1 <= page < last_exact_page ->
     ItemsTable.nextPage page = page + 1 /\
     queryKey (ItemsTable.getItemsQueryOptions (ItemsTable.nextPage page)) =
       [KStr "items"; KPage (page + 1)] /\
     query (queryFn (ItemsTable.getItemsQueryOptions (ItemsTable.nextPage page))) =
       [("skip", Some (JsNumber.Finite (page * 5)));
        ("limit", Some (JsNumber.Finite 5))]).
Proof.
  intros page cached prevData last r. subst r.
  cbn [ItemsTable.render ItemsTable.footer_hasNextPage ItemsTable.effects
       ItemsTable.deps].
  set (q := ItemsTable.useQuery (fun prev => prev) cached prevData).
  set (next := ItemsTable.hasNextPage (ItemsTable.isPlaceholderData q)
                 (ItemsTable.items q)).
  split; [|split].
  - intros Hnext Hdue. rewrite (useEffect_runs _ _ _ Hdue).
    unfold ItemsTable.prefetchEffect. now rewrite Hnext.
  - intros [Hnext | Hlast].
    + rewrite Hnext. destruct last as [l|]; cbn; [|reflexivity].
      now destruct (ItemsTable.Deps_eqb l (page, false)).
    + rewrite Hlast. apply useEffect_skips.
  - intros Hp. rewrite (nextPage_exact page Hp).
    split; [reflexivity|]. split; [reflexivity|].
    cbn [ItemsTable.getItemsQueryOptions queryFn ItemsService.readItems query
         skip limit].
    rewrite offset_exact by (unfold last_exact_page in *; lia).
    do 4 f_equal. lia.
Qed.

Lemma prefetch_next_page_iff_hasNextPage_witness :
  ItemsTable.effects (ItemsTable.render 1 (Some full_page) None None) =
    [PrefetchQuery (ItemsTable.getItemsQueryOptions (ItemsTable.nextPage 1))] /\
  ItemsTable.effects (ItemsTable.render 1 (Some short_page) None None) = [] /\
  ItemsTable.nextPage 1 = 2.
Proof.
  split; [|split].
  - apply (proj1 (prefetch_next_page_iff_hasNextPage 1 (Some full_page) None None)).
    + reflexivity.
    + discriminate.
  - apply (proj1 (proj2
      (prefetch_next_page_iff_hasNextPage 1 (Some short_page) None None))).
    left. reflexivity.
  - apply (proj2 (proj2
      (prefetch_next_page_iff_hasNextPage 1 (Some short_page) None None))).
    split; reflexivity.
Defined.

(** ** Search parameters *)

Lemma lookup_assign (k : string) (v : Route.JsValue) (o : Route.SearchObject) :
  Route.lookup k (Route.assign k v o) = v.
Proof.
  induction o as [|[k' v'] rest IH]; cbn.
  - now rewrite String.eqb_refl.
  - destruct (String.eqb k k') eqn:E; cbn; rewrite E; [reflexivity | exact IH].
Qed.

(** C8: the page is read from the search key [page] and written back to
    it; an absent key gives 1, a value that is not a number gives 1, a
    number is kept, so every search object yields a page number. *)
Theorem validateSearch_page_total :
  forall search : Route.SearchObject,
    (exists n : Z, Route.validateSearch search = Some {| Route.page := n |}) /\
    (Route.lookup "page" search = Route.JUndefined ->
     Route.validateSearch search = Some {| Route.page := 1 |}) /\
    (Route.z_number (Route.lookup "page" search) = None ->
     Route.validateSearch search = Some {| Route.page := 1 |}) /\
    (forall n : Z,
        Route.lookup "page" search = Route.JNumber n ->
        Route.validateSearch search = Some {| Route.page := n |}) /\
    (forall p : Z,
        Route.validateSearch (Route.setPage p search) = Some {| Route.page := p |}).
Proof.
  intros search.
  unfold Route.validateSearch, Route.itemsSearchSchema_parse, Route.z_catch.
  repeat split.
  - eexists. reflexivity.
  - intros ->. reflexivity.
  - intros ->. reflexivity.
  - intros n ->. reflexivity.
  - intros p. unfold Route.setPage. now rewrite lookup_assign.
Qed.

Lemma validateSearch_page_total_witness :
  Route.validateSearch [("page", Route.JString "abc")] = Some {| Route.page := 1 |} /\
  Route.validateSearch [("q", Route.JString "x")] = Some {| Route.page := 1 |} /\
  Route.validateSearch [("page", Route.JNumber 4)] = Some {| Route.page := 4 |}.
Proof.
  split; [|split].
  - apply (proj1 (proj2 (proj2
      (validateSearch_page_total [("page", Route.JString "abc")])))).
    reflexivity.
  - apply (proj1 (proj2 (validateSearch_page_total [("q", Route.JString "x")]))).
    reflexivity.
  - apply (proj1 (proj2 (proj2 (proj2
      (validateSearch_page_total [("page", Route.JNumber 4)]))))).
    reflexivity.
Defined.

(** ** The Add Item form *)

Lemma validate_title_nonempty (t : string) :
  t <> "" -> AddItem.validate_title t = None.
Proof.
  intros Hne. unfold AddItem.validate_title.
  destruct (String.eqb_spec t ""); [contradiction | reflexivity].
Qed.

Lemma submit_valid (s : AddItem.State) :
  Navbar.isOpen (AddItem.modal s) = true ->
  AddItem.isSubmitting s = false ->
  title (AddItem.values s) <> "" ->
  AddItem.step AddItem.Submit s =
    (tt,
     AddItem.with_isSubmitted true
       (AddItem.with_inflight (AddItem.inflight s ++ [AddItem.values s])
          (AddItem.with_errors_title None s)),
     [Request (ItemsService.createItem (AddItem.values s))]).
Proof.
  intros Hopen Hsub Htitle. destruct s as [v e sub sbd m c fl]. cbn in *. subst sub.
  assert (Hnv : String.eqb (title v) "" = false)
    by (destruct (String.eqb_spec (title v) ""); [contradiction | reflexivity]).
  unfold AddItem.step, AddItem.nativeValid, bind, get. cbn.
  rewrite Hopen, Hnv. cbn.
  unfold AddItem.handleSubmit, bind, get, modify. cbn.
  rewrite (validate_title_nonempty _ Htitle). reflexivity.
Qed.

Lemma settled_fulfilled (s : AddItem.State) (d : ItemCreate)
    (rest : list ItemCreate) :
  AddItem.inflight s = d :: rest ->
  AddItem.step (AddItem.Settled Fulfilled) s =
    (tt,
     AddItem.with_cache (invalidateMatching [KStr "items"] (AddItem.cache s))
       (AddItem.with_modal {| Navbar.isOpen := false |}
          (AddItem.with_isSubmitted false
             (AddItem.with_isSubmitting false
                (AddItem.with_errors_title None
                   (AddItem.with_values AddItem.defaultValues
                      (AddItem.with_inflight rest s)))))),
     [ ShowToast "Success!" "Item created successfully." "success";
       InvalidateQueries [KStr "items"] ]).
Proof.
  intros Hfl. destruct s as [v e sub sbd m c fl]. cbn in Hfl. subst fl. reflexivity.
Qed.

(** C4: a submission of a valid form that succeeds issues exactly one
    [createItem] call, shows the success notification, resets the fields to
    their defaults, closes the modal and invalidates the [items] key.  The
    success callbacks themselves send nothing, whatever else is in
    flight. *)
Theorem addItem_success :
  forall s : AddItem.State,
    Navbar.isOpen (AddItem.modal s) = true ->
    AddItem.isSubmitting s = false ->
    AddItem.inflight s = [] ->
    title (AddItem.values s) <> "" ->
    let r := AddItem.run [AddItem.Submit; AddItem.Settled Fulfilled] s in
    AddItem.trace_of r =
      [ Request (ItemsService.createItem (AddItem.values s));
        ShowToast "Success!" "Item created successfully." "success";
        InvalidateQueries [KStr "items"] ] /\
    requests (AddItem.trace_of r) =
      [ Request (ItemsService.createItem (AddItem.values s)) ] /\
    AddItem.values (AddItem.state_of r) =
      {| title := ""; description := ""; type := "other" |} /\
    AddItem.errors_title (AddItem.state_of r) = None /\
    Navbar.isOpen (AddItem.modal (AddItem.state_of r)) = false /\
    AddItem.cache (AddItem.state_of r) =
      invalidateMatching [KStr "items"] (AddItem.cache s) /\
    AddItem.inflight (AddItem.state_of r) = [] /\
    (forall (s' : AddItem.State) (d : ItemCreate) (rest : list ItemCreate),
        AddItem.inflight s' = d :: rest ->
        AddItem.trace_of (AddItem.step (AddItem.Settled Fulfilled) s') =
          [ ShowToast "Success!" "Item created successfully." "success";
            InvalidateQueries [KStr "items"] ] /\
        AddItem.values (AddItem.state_of (AddItem.step (AddItem.Settled Fulfilled) s')) =
          {| title := ""; description := ""; type := "other" |} /\
        Navbar.isOpen
          (AddItem.modal (AddItem.state_of (AddItem.step (AddItem.Settled Fulfilled) s'))) =
          false /\
        AddItem.inflight (AddItem.state_of (AddItem.step (AddItem.Settled Fulfilled) s')) =
          rest).
Proof.
  intros s Hopen Hsub Hfl Htitle r.
  assert (Hr : r =
    (tt,
     AddItem.with_cache (invalidateMatching [KStr "items"] (AddItem.cache s))
       (AddItem.with_modal {| Navbar.isOpen := false |}
          (AddItem.with_isSubmitted false
             (AddItem.with_isSubmitting false
                (AddItem.with_errors_title None
                   (AddItem.with_values AddItem.defaultValues
                      (AddItem.with_inflight [] s)))))),
     [ Request (ItemsService.createItem (AddItem.values s));
       ShowToast "Success!" "Item created successfully." "success";
       InvalidateQueries [KStr "items"] ])).
  { subst r. unfold AddItem.run. unfold bind at 1.
    rewrite (submit_valid s Hopen Hsub Htitle).
    destruct s as [v e sub sbd m c fl]. cbn in Hfl. subst fl. reflexivity. }
  rewrite Hr. repeat (split; [reflexivity|]).
  intros s' d rest Hs'. rewrite (settled_fulfilled s' d rest Hs').
  repeat split.
Qed.

Lemma addItem_success_witness :
  AddItem.trace_of
    (AddItem.run [AddItem.Submit; AddItem.Settled Fulfilled] (addItem_open bike)) =
    [ Request (ItemsService.createItem bike);
      ShowToast "Success!" "Item created successfully." "success";
      InvalidateQueries [KStr "items"] ].
Proof.
  apply (addItem_success (addItem_open bike)).
  - reflexivity.
  - reflexivity.
  - reflexivity.
  - discriminate.
Defined.

(** C5, as the spec words it, fails: on the open form with an empty
    title a submission is stopped by the required check on the title
    input; nothing is sent, and no field error is set by it. *)
Lemma empty_title_submit_sets_no_error :
  AddItem.step AddItem.Submit (addItem_open AddItem.defaultValues) =
    (tt, addItem_open AddItem.defaultValues, []) /\
  AddItem.errors_title
    (AddItem.state_of
       (AddItem.step AddItem.Submit (addItem_open AddItem.defaultValues))) = None.
Proof. split; reflexivity. Qed.

(** C5, amended: submitting with an empty title sends nothing.  The
    required check on the title input stops the submission before the
    form's handler runs, so the submission changes nothing and sets no
    field error.  The form's own rule puts the [required] error with the
    message "Title is required." on the title field when the empty field
    is left, before a submission has gone through, or when the title is
    emptied after one; the handler, were it to run on an empty title,
    would set the same error and send nothing either. *)
Theorem addItem_empty_title_rejected :
  forall s : AddItem.State,
    Navbar.isOpen (AddItem.modal s) = true ->
    AddItem.isSubmitting s = false ->
    title (AddItem.values s) = "" ->
    AddItem.step AddItem.Submit s = (tt, s, []) /\
    (AddItem.isSubmitted s = false ->
     AddItem.step (AddItem.Blur AddItem.Title) s =
       (tt,
        AddItem.with_errors_title
          (Some {| AddItem.error_type := "required";
                   AddItem.error_message := "Title is required." |}) s,
        [])) /\
    (forall s' : AddItem.State,
        Navbar.isOpen (AddItem.modal s') = true ->
        AddItem.isSubmitted s' = true ->
        AddItem.trace_of (AddItem.step (AddItem.Change AddItem.Title "") s') = [] /\
        AddItem.errors_title
          (AddItem.state_of (AddItem.step (AddItem.Change AddItem.Title "") s')) =
          Some {| AddItem.error_type := "required";
                  AddItem.error_message := "Title is required." |}) /\
    AddItem.trace_of (AddItem.handleSubmit AddItem.onSubmit s) = [] /\
    AddItem.errors_title (AddItem.state_of (AddItem.handleSubmit AddItem.onSubmit s)) =
      Some {| AddItem.error_type := "required";
              AddItem.error_message := "Title is required." |} /\
    AddItem.inflight (AddItem.state_of (AddItem.handleSubmit AddItem.onSubmit s)) =
      AddItem.inflight s.
Proof.
  intros s Hopen Hsub Htitle.
  split; [|split; [|split]].
  - destruct s as [v e sub sbd m c fl]. cbn in *. subst sub.
    unfold AddItem.step, AddItem.nativeValid, bind, get. cbn.
    rewrite Hopen, Htitle. reflexivity.
  - intros Hsbd. destruct s as [v e sub sbd m c fl]. cbn in *. subst sub sbd.
    unfold AddItem.step, AddItem.revalidate, bind, get, modify. cbn.
    rewrite Hopen. cbn. rewrite Htitle. reflexivity.
  - intros s' Hopen' Hsbd'. destruct s' as [v e sub sbd m c fl]. cbn in *. subst sbd.
    unfold AddItem.step, AddItem.revalidate, bind, get, modify. cbn.
    rewrite Hopen'. split; reflexivity.
  - destruct s as [v e sub sbd m c fl]. cbn in *. subst sub.
    unfold AddItem.handleSubmit, bind, get, modify. cbn.
    rewrite Htitle. repeat split.
Qed.

Lemma addItem_empty_title_rejected_witness :
  AddItem.step AddItem.Submit (addItem_open AddItem.defaultValues) =
    (tt, addItem_open AddItem.defaultValues, []) /\
  AddItem.errors_title
    (AddItem.state_of
       (AddItem.step (AddItem.Blur AddItem.Title) (addItem_open AddItem.defaultValues))) =
    Some {| AddItem.error_type := "required";
            AddItem.error_message := "Title is required." |}.
Proof.
  destruct (addItem_empty_title_rejected (addItem_open AddItem.defaultValues)
              eq_refl eq_refl eq_refl) as [Hsubmit [Hblur _]].
  split; [exact Hsubmit|]. now rewrite (Hblur eq_refl).
Defined.

(** Between two events [isSubmitting] is never raised: [handleSubmit]
    lowers it before it returns, since [onSubmit] hands it no promise to
    wait for. *)
Lemma step_keeps_isSubmitting_false (e : AddItem.Event) (s : AddItem.State) :
  AddItem.isSubmitting s = false ->
  AddItem.isSubmitting (AddItem.state_of (AddItem.step e s)) = false.
Proof.
  intros Hsub. destruct s as [v er sub sbd m c fl]. cbn in Hsub. subst sub.
  destruct e as [|f x|f| | |o];
    unfold AddItem.step, AddItem.revalidate, AddItem.nativeValid, bind, get; cbn.
  - reflexivity.
  - destruct (Navbar.isOpen m); [|reflexivity].
    destruct f; cbn; try reflexivity. now destruct sbd.
  - destruct (Navbar.isOpen m); [|reflexivity].
    destruct f; cbn; try reflexivity. now destruct sbd.
  - destruct (Navbar.isOpen m); cbn; [|reflexivity].
    destruct (String.eqb (title v) ""); cbn; [reflexivity|].
    unfold AddItem.handleSubmit, bind, get, modify. cbn.
    destruct (AddItem.validate_title (title v)); reflexivity.
  - destruct (Navbar.isOpen m); reflexivity.
  - destruct fl as [|d rest]; cbn; [reflexivity|].
    destruct o; reflexivity.
Qed.

(** C6 at its failing input: the form is open with a valid title and Save
    is pressed twice before any response arrives.  After the first press
    the button is enabled again, and the second press sends a second
    [createItem] request while the first is still in flight. *)
Theorem addItem_double_submit_sends_twice :
  AddItem.saveDisabled
    (AddItem.state_of (AddItem.step AddItem.Submit (addItem_open bike))) = false /\
  AddItem.inflight
    (AddItem.state_of (AddItem.step AddItem.Submit (addItem_open bike))) = [bike] /\
  requests
    (AddItem.trace_of
       (AddItem.run [AddItem.Submit; AddItem.Submit] (addItem_open bike))) =
    [ Request (ItemsService.createItem bike);
      Request (ItemsService.createItem bike) ] /\
  AddItem.inflight
    (AddItem.state_of
       (AddItem.run [AddItem.Submit; AddItem.Submit] (addItem_open bike))) =
    [bike; bike].
Proof. repeat split. Qed.

(** ** The item details panel *)

Lemma onKeyDown_ctrl_enter (e : ItemDetails.KeyboardEvent) :
  ItemDetails.key e = "Enter" ->
  ItemDetails.ctrlKey e = true ->
  ItemDetails.onKeyDown e = ItemDetails.sendLog.
Proof.
  intros Hk Hc. unfold ItemDetails.onKeyDown. rewrite Hk, Hc. reflexivity.
Qed.

Lemma sendLog_with_message (s : ItemDetails.State) (m : string) :
  ItemDetails.truthy (ItemDetails.newLogMessage s) = Some m ->
  ItemDetails.sendLog s =
    (tt,
     ItemDetails.with_inflight (ItemDetails.inflight s ++ [ItemDetails.SendLog]) s,
     [Request (ItemsService.createItemLog
                 {| item_id := id (ItemDetails.item s); message := m |})]).
Proof.
  intros Hm. unfold ItemDetails.sendLog, mutate, bind, get. cbn.
  rewrite Hm. reflexivity.
Qed.

Lemma sendLog_without_message (s : ItemDetails.State) :
  ItemDetails.truthy (ItemDetails.newLogMessage s) = None ->
  ItemDetails.sendLog s =
    (tt, s,
     [ConsoleLog (Error "No log message provided");
      HandleError (Error "No log message provided")]).
Proof.
  intros Hm. unfold ItemDetails.sendLog, mutate, bind, get. cbn.
  rewrite Hm. reflexivity.
Qed.

(** C9: for every state of the panel, Ctrl+Enter in the textarea does what
    a click on the send button does: the same handler result, the same
    step, the same run with any events that follow, and, when there is a
    message, the same [createItemLog] request carrying it. *)
Theorem ctrl_enter_same_as_send_click :
  forall (e : ItemDetails.KeyboardEvent) (s : ItemDetails.State)
         (rest : list ItemDetails.Event),
    ItemDetails.key e = "Enter" ->
    ItemDetails.ctrlKey e = true ->
    ItemDetails.onKeyDown e s = ItemDetails.onClickSend s /\
    ItemDetails.step (ItemDetails.KeyDown e) s =
      ItemDetails.step ItemDetails.ClickSend s /\
    ItemDetails.run (ItemDetails.KeyDown e :: rest) s =
      ItemDetails.run (ItemDetails.ClickSend :: rest) s /\
    (forall m : string,
        ItemDetails.truthy (ItemDetails.newLogMessage s) = Some m ->
        ItemDetails.trace_of (ItemDetails.onKeyDown e s) =
          [Request (ItemsService.createItemLog
                      {| item_id := id (ItemDetails.item s); message := m |})] /\
        ItemDetails.trace_of (ItemDetails.onClickSend s) =
          [Request (ItemsService.createItemLog
                      {| item_id := id (ItemDetails.item s); message := m |})]).
Proof.
  intros e s rest Hk Hc.
  pose proof (onKeyDown_ctrl_enter e Hk Hc) as Heq.
  assert (Hstep : ItemDetails.step (ItemDetails.KeyDown e) s =
                  ItemDetails.step ItemDetails.ClickSend s).
  { unfold ItemDetails.step, bind, get. cbn.
    destruct (ItemDetails.composerRendered s); [|reflexivity].
    rewrite Heq. reflexivity. }
  split; [now rewrite Heq|]. split; [exact Hstep|]. split.
  - cbn [ItemDetails.run]. unfold bind. now rewrite Hstep.
  - intros m Hm. split.
    + rewrite Heq, (sendLog_with_message s m Hm). reflexivity.
    + unfold ItemDetails.onClickSend. rewrite (sendLog_with_message s m Hm).
      reflexivity.
Qed.

Lemma ctrl_enter_same_as_send_click_witness :
  ItemDetails.run [ItemDetails.KeyDown ctrl_enter; ItemDetails.Settled Fulfilled]
    (details_state (Some "moved to lab")) =
  ItemDetails.run [ItemDetails.ClickSend; ItemDetails.Settled Fulfilled]
    (details_state (Some "moved to lab")).
Proof.
  apply (ctrl_enter_same_as_send_click ctrl_enter
           (details_state (Some "moved to lab"))
           [ItemDetails.Settled Fulfilled]); reflexivity.
Defined.

Lemma truthy_empty (v : option string) :
  v = None \/ v = Some "" -> ItemDetails.truthy v = None.
Proof. intros [-> | ->]; reflexivity. Qed.

(** C10: with a message that is [null] or empty, the send action, by
    button or by Ctrl+Enter, sends no request: the mutation function
    rejects, the error callback logs and reports the error, nothing is
    invalidated, and the state, with the cached logs in it, is as
    before. *)
Theorem empty_message_sends_no_request :
  forall (s : ItemDetails.State) (e : ItemDetails.KeyboardEvent),
    ItemDetails.newLogMessage s = None \/ ItemDetails.newLogMessage s = Some "" ->
    ItemDetails.key e = "Enter" ->
    ItemDetails.ctrlKey e = true ->
    ItemDetails.onClickSend s =
      (tt, s, [ConsoleLog (Error "No log message provided");
               HandleError (Error "No log message provided")]) /\
    ItemDetails.onKeyDown e s =
      (tt, s, [ConsoleLog (Error "No log message provided");
               HandleError (Error "No log message provided")]) /\
    (forall ev : ItemDetails.Event,
        ev = ItemDetails.ClickSend \/ ev = ItemDetails.KeyDown e ->
        requests (ItemDetails.trace_of (ItemDetails.step ev s)) = [] /\
        invalidations (ItemDetails.trace_of (ItemDetails.step ev s)) = [] /\
        ItemDetails.state_of (ItemDetails.step ev s) = s /\
        ItemDetails.cache (ItemDetails.state_of (ItemDetails.step ev s)) =
          ItemDetails.cache s /\
        ItemDetails.inflight (ItemDetails.state_of (ItemDetails.step ev s)) =
          ItemDetails.inflight s).
Proof.
  intros s e Hmsg Hk Hc.
  pose proof (sendLog_without_message s (truthy_empty _ Hmsg)) as Hsend.
  pose proof (onKeyDown_ctrl_enter e Hk Hc) as Heq.
  split; [exact Hsend|]. split; [rewrite Heq; exact Hsend|].
  intros ev Hev.
  assert (Hstep : ItemDetails.step ev s = ItemDetails.sendLog s \/
                  ItemDetails.step ev s = (tt, s, [])).
  { destruct Hev as [-> | ->]; unfold ItemDetails.step, bind, get; cbn;
      destruct (ItemDetails.composerRendered s).
    - left. unfold ItemDetails.onClickSend.
      now destruct (ItemDetails.sendLog s) as [[u s'] t].
    - right. reflexivity.
    - left. rewrite Heq.
      now destruct (ItemDetails.sendLog s) as [[u s'] t].
    - right. reflexivity. }
  destruct Hstep as [-> | ->]; [rewrite Hsend|]; repeat split.
Qed.

Lemma empty_message_sends_no_request_witness :
  requests
    (ItemDetails.trace_of
       (ItemDetails.step ItemDetails.ClickSend (details_state (Some "")))) = [] /\
  requests
    (ItemDetails.trace_of
       (ItemDetails.step (ItemDetails.KeyDown ctrl_enter) (details_state None))) = [].
Proof.
  split.
  - apply (proj2 (proj2
      (empty_message_sends_no_request (details_state (Some "")) ctrl_enter
         (or_intror eq_refl) eq_refl eq_refl))).
    left. reflexivity.
  - apply (proj2 (proj2
      (empty_message_sends_no_request (details_state None) ctrl_enter
         (or_introl eq_refl) eq_refl eq_refl))).
    right. reflexivity.
Defined.

(** ** Invalidation after a write *)


Lemma forallb_false_intro {A : Type} (f : A -> bool) (l : list A) (x : A) :
  In x l -> f x = false -> forallb f l = false.
Proof.
  intros Hin Hx. destruct (forallb f l) eqn:E; [|reflexivity].
  rewrite forallb_forall in E. specialize (E x Hin). congruence.
Qed.

Lemma search_filter_reaches_its_page (p : Z) :
  partialMatchFilter [KStr "items"; KPage p]
    [FKey (KStr "items"); FObject [("page", Route.JNumber p)]] = true.
Proof. cbn. now rewrite Z.eqb_refl. Qed.

Lemma search_filter_with_other_key (p : Z) (o : Route.SearchObject) (k : string) :
  k <> "page" ->
  In k (map fst o) ->
  Route.lookup k o <> Route.JUndefined ->
  partialMatchFilter [KStr "items"; KPage p] [FKey (KStr "items"); FObject o] = false.
Proof.
  intros Hk Hin Hv. cbn. rewrite andb_true_r.
  apply in_map_iff in Hin. destruct Hin as [kv [Hfst Hkv]].
  apply (forallb_false_intro _ o kv Hkv). rewrite Hfst.
  unfold partialMatchField.
  destruct (String.eqb_spec k "page"); [contradiction|].
  destruct (Route.lookup k o); try reflexivity. now contradiction Hv.
Qed.



(** * Further properties of the code *)

(** ** Page windows and navigation *)

Lemma window_bounds (n p : Z) :
  1 <= p <= last_exact_page ->
  (in_window n p <-> (p - 1) * 5 <= n < (p - 1) * 5 + 5).
Proof.
  intros Hp. unfold in_window.
  cbn [ItemsTable.getItemsQueryOptions queryFn ItemsService.readItems query
       skip limit query_param String.eqb Ascii.eqb Bool.eqb].
  rewrite (offset_exact p Hp). unfold ItemsTable.PER_PAGE. split.
  - intros [a [l [Ha [Hl Hn]]]]. inversion Ha. inversion Hl. subst. exact Hn.
  - intros Hn. exists ((p - 1) * 5), 5. repeat split; lia.
Qed.

(** X1: among the integer pages from 1 to 1801439850948199, for which the
    offsets are computed exactly, the requested windows tile the item
    list: every item index [n] from 0 to 9007199254740994 lies in the
    window of page [n / 5 + 1], which is such a page, and in the window of
    no other such page. *)
Theorem page_windows_partition :
  forall n : Z,
    0 <= n <= 9007199254740994 ->
    1 <= n / 5 + 1 <= last_exact_page /\
    in_window n (n / 5 + 1) /\
    (forall q : Z, 1 <= q <= last_exact_page -> in_window n q -> q = n / 5 + 1).
Proof.
  intros n Hn.
  pose proof (Z.div_mod n 5 ltac:(lia)) as Hdm.
  pose proof (Z.mod_pos_bound n 5 ltac:(lia)) as Hb.
  assert (Hpage : 1 <= n / 5 + 1 <= last_exact_page)
    by (unfold last_exact_page; lia).
  split; [exact Hpage|]. split.
  - apply (window_bounds n _ Hpage). lia.
  - intros q Hq Hw. apply (window_bounds n q Hq) in Hw. nia.
Qed.

Lemma page_windows_partition_witness :
  in_window 12 3 /\
  (forall q : Z, 1 <= q <= last_exact_page -> in_window 12 q -> q = 3).
Proof.
  exact (proj2 (page_windows_partition 12
                  (conj (Zle_bool_imp_le 0 12 eq_refl)
                        (Zle_bool_imp_le 12 9007199254740994 eq_refl)))).
Defined.

(** X2: moving to the next page lands on the query that was prefetched:
    when a render of page [p] prefetches, the prefetched options are those
    the table subscribes to once [setPage] of the next page, [p + 1] as
    the table computes it, has gone through the search schema. *)
Theorem next_page_is_the_prefetched_query :
  forall (p : Z) cached prevData last (search : Route.SearchObject)
         cached' prevData' last',
    ItemsTable.footer_hasNextPage (ItemsTable.render p cached prevData last) = true ->
    last <> Some (ItemsTable.deps (ItemsTable.render p cached prevData last)) ->
    exists s' : Route.ItemsSearch,
      Route.validateSearch (Route.setPage (ItemsTable.nextPage p) search) = Some s' /\
      ItemsTable.effects (ItemsTable.render p cached prevData last) =
        [PrefetchQuery
           (ItemsTable.subscribed
              (ItemsTable.render (Route.page s') cached' prevData' last'))].
Proof.
  intros p cached prevData last search cached' prevData' last' Hnext Hdue.
  exists {| Route.page := ItemsTable.nextPage p |}. split.
  - unfold Route.validateSearch, Route.itemsSearchSchema_parse, Route.setPage.
    now rewrite lookup_assign.
  - cbn [ItemsTable.render ItemsTable.footer_hasNextPage ItemsTable.effects
         ItemsTable.deps ItemsTable.subscribed Route.page] in *.
    rewrite (useEffect_runs _ _ _ Hdue).
    unfold ItemsTable.prefetchEffect. now rewrite Hnext.
Qed.

Lemma next_page_is_the_prefetched_query_witness :
  exists s' : Route.ItemsSearch,
    Route.validateSearch
      (Route.setPage (ItemsTable.nextPage 1) [("page", Route.JNumber 1)]) = Some s' /\
    ItemsTable.effects (ItemsTable.render 1 (Some full_page) None None) =
      [PrefetchQuery
         (ItemsTable.subscribed
            (ItemsTable.render (Route.page s') None (Some full_page) None))].
Proof.
  apply (next_page_is_the_prefetched_query 1 (Some full_page) None None
           [("page", Route.JNumber 1)] None (Some full_page) None).
  - reflexivity.
  - discriminate.
Defined.

Lemma lookup_assign_other (k k' : string) (v : Route.JsValue)
    (o : Route.SearchObject) :
  k' <> k -> Route.lookup k' (Route.assign k v o) = Route.lookup k' o.
Proof.
  intros Hne. induction o as [|[k0 v0] rest IH]; cbn.
  - destruct (String.eqb_spec k' k); [contradiction | reflexivity].
  - destruct (String.eqb_spec k k0) as [->|Hk0]; cbn.
    + destruct (String.eqb_spec k' k0); [contradiction | reflexivity].
    + destruct (String.eqb k' k0); [reflexivity | exact IH].
Qed.

(** [Route.useSearch()] keeps the keys of the URL that the schema does not
    name, and holds a number under [page]. *)
Lemma useSearch_keeps_url_keys (raw : Route.SearchObject) (k : string) :
  k <> "page" ->
  exists (o : Route.SearchObject) (n : Z),
    Route.useSearch raw = Some o /\
    Route.lookup k o = Route.lookup k raw /\
    Route.lookup "page" o = Route.JNumber n.
Proof.
  intros Hk. unfold Route.useSearch, Route.validateSearch, Route.itemsSearchSchema_parse.
  eexists. eexists. split; [reflexivity|]. split.
  - now apply lookup_assign_other.
  - apply lookup_assign.
Qed.

(** X4: [setPage] touches the [page] key only: every other search key
    reads as before, and of two page changes in a row the second one
    decides the page. *)
Theorem setPage_keeps_other_keys :
  forall (p q : Z) (search : Route.SearchObject) (k : string),
    k <> "page" ->
    Route.lookup k (Route.setPage p search) = Route.lookup k search /\
    Route.validateSearch (Route.setPage q (Route.setPage p search)) =
      Some {| Route.page := q |} /\
    Route.lookup k (Route.setPage q (Route.setPage p search)) = Route.lookup k search.
Proof.
  intros p q search k Hk. unfold Route.setPage. repeat split.
  - now apply lookup_assign_other.
  - unfold Route.validateSearch, Route.itemsSearchSchema_parse.
    now rewrite lookup_assign.
  - rewrite !lookup_assign_other by exact Hk. reflexivity.
Qed.

Lemma setPage_keeps_other_keys_witness :
  Route.lookup "q" (Route.setPage 3 [("q", Route.JString "flask"); ("page", Route.JNumber 1)]) =
    Route.JString "flask".
Proof.
  apply (setPage_keeps_other_keys 3 3
           [("q", Route.JString "flask"); ("page", Route.JNumber 1)] "q").
  discriminate.
Defined.

(** ** Runs of the Add Item form *)

Lemma bind_trace {S A B : Type} (m : handler (S:=S) A) (k : A -> handler (S:=S) B)
    (s : S) :
  snd (bind m k s) =
    (snd (m s) ++ snd (k (fst (fst (m s))) (snd (fst (m s)))))%list.
Proof.
  unfold bind. destruct (m s) as [[a s1] t1]. cbn.
  now destruct (k a s1) as [[b s2] t2].
Qed.

Lemma bind_state {S A B : Type} (m : handler (S:=S) A) (k : A -> handler (S:=S) B)
    (s : S) :
  snd (fst (bind m k s)) = snd (fst (k (fst (fst (m s))) (snd (fst (m s))))).
Proof.
  unfold bind. destruct (m s) as [[a s1] t1]. cbn.
  now destruct (k a s1) as [[b s2] t2].
Qed.

Lemma addItem_run_cons_state (e : AddItem.Event) (es : list AddItem.Event)
    (s : AddItem.State) :
  AddItem.state_of (AddItem.run (e :: es) s) =
    AddItem.state_of (AddItem.run es (AddItem.state_of (AddItem.step e s))).
Proof.
  unfold AddItem.state_of. cbn [AddItem.run].
  exact (bind_state (AddItem.step e) (fun _ => AddItem.run es) s).
Qed.

Lemma addItem_run_cons_trace (e : AddItem.Event) (es : list AddItem.Event)
    (s : AddItem.State) :
  AddItem.trace_of (AddItem.run (e :: es) s) =
    (AddItem.trace_of (AddItem.step e s) ++
     AddItem.trace_of (AddItem.run es (AddItem.state_of (AddItem.step e s))))%list.
Proof.
  unfold AddItem.trace_of, AddItem.state_of. cbn [AddItem.run].
  exact (bind_trace (AddItem.step e) (fun _ => AddItem.run es) s).
Qed.

(** X5: from a state in which no submission is running, no sequence of
    events leaves [isSubmitting] raised, so the Save button is enabled
    after every event, also while requests are in flight. *)
Theorem save_button_never_stays_disabled :
  forall (es : list AddItem.Event) (s : AddItem.State),
    AddItem.isSubmitting s = false ->
    AddItem.saveDisabled (AddItem.state_of (AddItem.run es s)) = false.
Proof.
  induction es as [|e es IH]; intros s Hs.
  - exact Hs.
  - rewrite addItem_run_cons_state. apply IH.
    now apply step_keeps_isSubmitting_false.
Qed.

Lemma save_button_never_stays_disabled_witness :
  AddItem.saveDisabled
    (AddItem.state_of
       (AddItem.run [AddItem.Submit; AddItem.Change AddItem.Title "x"]
          (addItem_open bike))) = false.
Proof.
  apply (save_button_never_stays_disabled
           [AddItem.Submit; AddItem.Change AddItem.Title "x"] (addItem_open bike)).
  reflexivity.
Defined.

Lemma addItem_step_trace (e : AddItem.Event) (s : AddItem.State) :
  AddItem.isSubmitting s = false ->
  (AddItem.trace_of (AddItem.step e s) = [] \/
   (e = AddItem.Submit /\ title (AddItem.values s) <> "" /\
    AddItem.trace_of (AddItem.step e s) =
      [Request (ItemsService.createItem (AddItem.values s))]) \/
   (exists o, e = AddItem.Settled o /\
              requests (AddItem.trace_of (AddItem.step e s)) = [])).
Proof.
  intros Hsub. destruct s as [v er sub sbd m c fl]. cbn in Hsub. subst sub.
  destruct e as [|f x|f| | |o];
    unfold AddItem.step, AddItem.revalidate, AddItem.nativeValid, bind, get; cbn.
  - left. reflexivity.
  - left. destruct (Navbar.isOpen m); [|reflexivity].
    destruct f; cbn; try reflexivity. now destruct sbd.
  - left. destruct (Navbar.isOpen m); [|reflexivity].
    destruct f; cbn; try reflexivity. now destruct sbd.
  - destruct (Navbar.isOpen m); cbn; [|left; reflexivity].
    destruct (String.eqb_spec (title v) "") as [Heq|Hne]; cbn; [left; reflexivity|].
    unfold AddItem.handleSubmit, bind, get, modify. cbn.
    rewrite (validate_title_nonempty _ Hne). cbn.
    right. left. repeat split. exact Hne.
  - left. destruct (Navbar.isOpen m); reflexivity.
  - right. right. exists o. split; [reflexivity|].
    destruct fl as [|d rest]; cbn; [reflexivity|].
    destruct o; reflexivity.
Qed.

(** X6: whatever the user does and whatever the server answers, every
    request the form sends is a [createItem] whose title is not empty. *)
Theorem form_sends_only_titled_items :
  forall (es : list AddItem.Event) (s : AddItem.State),
    AddItem.isSubmitting s = false ->
    Forall titled_createItem (AddItem.trace_of (AddItem.run es s)).
Proof.
  induction es as [|e es IH]; intros s Hs.
  - constructor.
  - rewrite addItem_run_cons_trace. apply Forall_app. split.
    + destruct (addItem_step_trace e s Hs) as [H | [[_ [Ht H]] | [o [_ H]]]].
      * rewrite H. constructor.
      * rewrite H. constructor; [|constructor].
        intros _. exists (AddItem.values s). split; [reflexivity | exact Ht].
      * apply Forall_forall. intros x Hx Hreq.
        assert (Hin : In x (requests (AddItem.trace_of (AddItem.step e s)))).
        { apply filter_In. split; assumption. }
        rewrite H in Hin. destruct Hin.
    + apply IH. now apply step_keeps_isSubmitting_false.
Qed.

Lemma form_sends_only_titled_items_witness :
  Forall titled_createItem
    (AddItem.trace_of
       (AddItem.run
          [AddItem.Change AddItem.Title ""; AddItem.Submit;
           AddItem.Change AddItem.Title "lamp"; AddItem.Submit;
           AddItem.Settled Fulfilled]
          (addItem_open bike))).
Proof.
  apply (form_sends_only_titled_items
           [AddItem.Change AddItem.Title ""; AddItem.Submit;
            AddItem.Change AddItem.Title "lamp"; AddItem.Submit;
            AddItem.Settled Fulfilled]
           (addItem_open bike)).
  reflexivity.
Defined.

(** X7: the form sends at most one request per submit event: the number
    of requests in the trace of a run never exceeds the number of [Submit]
    events in it. *)
Theorem at_most_one_request_per_submit :
  forall (es : list AddItem.Event) (s : AddItem.State),
    AddItem.isSubmitting s = false ->
    (List.length (requests (AddItem.trace_of (AddItem.run es s))) <=
     List.length (filter is_submit es))%nat.
Proof.
  induction es as [|e es IH]; intros s Hs.
  - cbn. lia.
  - rewrite addItem_run_cons_trace. unfold requests in *.
    rewrite filter_app, length_app.
    specialize (IH _ (step_keeps_isSubmitting_false e s Hs)).
    set (n := List.length
                (filter is_request
                   (AddItem.trace_of
                      (AddItem.run es (AddItem.state_of (AddItem.step e s)))))) in *.
    destruct (addItem_step_trace e s Hs) as [H | [[He [_ H]] | [o [He H]]]].
    + rewrite H. cbn [filter List.length].
      destruct (is_submit e); cbn [List.length]; lia.
    + rewrite H. subst e. cbn. lia.
    + unfold requests in H. rewrite H. subst e. cbn. lia.
Qed.

Lemma at_most_one_request_per_submit_witness :
  (List.length
     (requests
        (AddItem.trace_of
           (AddItem.run [AddItem.Submit; AddItem.Submit; AddItem.Settled Fulfilled]
              (addItem_open bike)))) <= 2)%nat.
Proof.
  apply (at_most_one_request_per_submit
           [AddItem.Submit; AddItem.Submit; AddItem.Settled Fulfilled]
           (addItem_open bike)).
  reflexivity.
Defined.

(** X8: a submission the server refuses leaves the form as the user filled
    it: one request is sent, the error is handed to [handleError], the
    [items] key is invalidated, and the values and the open modal stay;
    the form counts as submitted. *)
Theorem addItem_failure_keeps_form :
  forall (s : AddItem.State) (err : Failure),
    Navbar.isOpen (AddItem.modal s) = true ->
    AddItem.isSubmitting s = false ->
    AddItem.inflight s = [] ->
    title (AddItem.values s) <> "" ->
    AddItem.run [AddItem.Submit; AddItem.Settled (Failed err)] s =
      (tt,
       AddItem.with_cache (invalidateMatching [KStr "items"] (AddItem.cache s))
         (AddItem.with_isSubmitted true (AddItem.with_errors_title None s)),
       [ Request (ItemsService.createItem (AddItem.values s));
         HandleError err;
         InvalidateQueries [KStr "items"] ]).
Proof.
  intros s err Hopen Hsub Hfl Htitle.
  unfold AddItem.run. unfold bind at 1.
  rewrite (submit_valid s Hopen Hsub Htitle).
  destruct s as [v e sub sbd m c fl]. cbn in Hfl, Hsub. subst fl sub. reflexivity.
Qed.

Lemma addItem_failure_keeps_form_witness :
  AddItem.values
    (AddItem.state_of
       (AddItem.run [AddItem.Submit; AddItem.Settled (Failed server_error)]
          (addItem_open bike))) = bike.
Proof.
  rewrite (addItem_failure_keeps_form (addItem_open bike) server_error
             eq_refl eq_refl eq_refl ltac:(discriminate)).
  reflexivity.
Defined.

(** X9: Cancel only closes the modal: it sends nothing, keeps the typed
    values and does not abort a request in flight.  When the response to
    such a request arrives after the Cancel and is a success, all the
    success callbacks still run: the notification is shown, the form is
    reset to its defaults, and the [items] key is invalidated. *)
Theorem cancel_only_closes :
  forall s : AddItem.State,
    Navbar.isOpen (AddItem.modal s) = true ->
    AddItem.isSubmitting s = false ->
    AddItem.inflight s = [] ->
    title (AddItem.values s) <> "" ->
    AddItem.step AddItem.Cancel s =
      (tt, AddItem.with_modal {| Navbar.isOpen := false |} s, []) /\
    AddItem.run [AddItem.Submit; AddItem.Cancel] s =
      (tt,
       AddItem.with_modal {| Navbar.isOpen := false |}
         (AddItem.with_isSubmitted true
            (AddItem.with_inflight [AddItem.values s]
               (AddItem.with_errors_title None s))),
       [ Request (ItemsService.createItem (AddItem.values s)) ]) /\
    AddItem.run [AddItem.Submit; AddItem.Cancel; AddItem.Settled Fulfilled] s =
      (tt,
       AddItem.with_cache (invalidateMatching [KStr "items"] (AddItem.cache s))
         (AddItem.with_modal {| Navbar.isOpen := false |}
            (AddItem.with_isSubmitted false
               (AddItem.with_errors_title None
                  (AddItem.with_values AddItem.defaultValues s)))),
       [ Request (ItemsService.createItem (AddItem.values s));
         ShowToast "Success!" "Item created successfully." "success";
         InvalidateQueries [KStr "items"] ]).
Proof.
  intros s Hopen Hsub Hfl Htitle. split; [|split].
  - destruct s as [v e sub sbd m c fl]. cbn in Hopen.
    unfold AddItem.step, bind, get. cbn. rewrite Hopen. reflexivity.
  - unfold AddItem.run. unfold bind at 1.
    rewrite (submit_valid s Hopen Hsub Htitle).
    destruct s as [v e sub sbd m c fl]. cbn in Hfl, Hopen, Hsub. subst fl sub.
    unfold AddItem.step, bind, get. cbn. rewrite Hopen. reflexivity.
  - unfold AddItem.run. unfold bind at 1.
    rewrite (submit_valid s Hopen Hsub Htitle).
    destruct s as [v e sub sbd m c fl]. cbn in Hfl, Hopen, Hsub. subst fl sub.
    unfold AddItem.step, bind, get. cbn. rewrite Hopen. reflexivity.
Qed.

Lemma cancel_only_closes_witness :
  AddItem.values
    (AddItem.state_of
       (AddItem.run [AddItem.Submit; AddItem.Cancel; AddItem.Settled Fulfilled]
          (addItem_open bike))) = AddItem.defaultValues.
Proof.
  rewrite (proj2 (proj2 (cancel_only_closes (addItem_open bike)
                           eq_refl eq_refl eq_refl ltac:(discriminate)))).
  reflexivity.
Defined.

(** ** The reach of the invalidations *)

Lemma partialMatchKey_nil (k : QueryKey) : partialMatchKey k [] = true.
Proof. now destruct k. Qed.

Lemma invalidateMatching_In (filter : QueryKey) (c : QueryCache) (q : Query) :
  In q c ->
  In (if partialMatchKey (key q) filter then invalidate q else q)
     (invalidateMatching filter c).
Proof.
  intros Hq. unfold invalidateMatching.
  exact (in_map (fun q => if partialMatchKey (key q) filter then invalidate q else q)
           c q Hq).
Qed.

Lemma invalidateMatching_data (filter : QueryKey) (c : QueryCache) (q' : Query) :
  In q' (invalidateMatching filter c) ->
  exists q, In q c /\ key q' = key q /\ state_data q' = state_data q.
Proof.
  unfold invalidateMatching. intros Hq'. apply in_map_iff in Hq'.
  destruct Hq' as [q [Heq Hq]]. exists q. split; [exact Hq|].
  subst q'. now destruct (partialMatchKey (key q) filter).
Qed.

(** X10: when an Add Item request settles, with either outcome, every
    cached query whose key starts with ["items"] is flagged, whatever its
    page; a query of another resource stays as it was; and no entry gets a
    different key or different data. *)
Theorem createItem_settled_flags_every_items_page :
  forall (o : Outcome) (s : AddItem.State) (q : Query),
    In q (AddItem.cache s) ->
    (forall rest, key q = KStr "items" :: rest ->
       In (invalidate q)
          (AddItem.cache (AddItem.state_of (settle AddItem.mutation o s)))) /\
    ((forall rest, key q <> KStr "items" :: rest) ->
       In q (AddItem.cache (AddItem.state_of (settle AddItem.mutation o s)))) /\
    (forall q',
       In q' (AddItem.cache (AddItem.state_of (settle AddItem.mutation o s))) ->
       exists q0, In q0 (AddItem.cache s) /\ key q' = key q0 /\
                  state_data q' = state_data q0).
Proof.
  intros o s q Hq.
  assert (Hc : AddItem.cache (AddItem.state_of (settle AddItem.mutation o s)) =
               invalidateMatching [KStr "items"] (AddItem.cache s))
    by (destruct o; reflexivity).
  rewrite Hc. pose proof (invalidateMatching_In [KStr "items"] _ q Hq) as Hin.
  split; [|split].
  - intros rest Hk. rewrite Hk in Hin. cbn in Hin.
    now rewrite partialMatchKey_nil in Hin.
  - intros Hk. destruct (key q) as [|a ks] eqn:Ek; [exact Hin|].
    destruct a as [k|p]; [|exact Hin]. cbn in Hin.
    destruct (String.eqb_spec k "items") as [->|Hne]; [|exact Hin].
    now contradiction (Hk ks).
  - apply invalidateMatching_data.
Qed.

Lemma createItem_settled_flags_every_items_page_witness :
  In (invalidate
        {| key := [KStr "items"; KPage 1]; state_data := ItemsData full_page;
           isInvalidated := false |})
     (AddItem.cache
        (AddItem.state_of
           (settle AddItem.mutation (Failed server_error) (addItem_open bike)))).
Proof.
  apply (proj1 (createItem_settled_flags_every_items_page (Failed server_error)
                  (addItem_open bike) _ (or_introl eq_refl)) [KPage 1]).
  reflexivity.
Defined.

Lemma invalidateMatchingWith_In (filter : list FilterPart) (c : QueryCache)
    (q : Query) :
  In q c ->
  In (if partialMatchFilter (key q) filter then invalidate q else q)
     (invalidateMatchingWith filter c).
Proof.
  intros Hq. unfold invalidateMatchingWith.
  exact (in_map (fun q => if partialMatchFilter (key q) filter then invalidate q else q)
           c q Hq).
Qed.

(** X11: a successful move flags the log query of the moved item.  It
    flags the [items] query of page [p] when the current search object
    holds [page] only, with value [p]; when the search object holds
    another key as well, or another page, that [items] query stays as it
    was; and the location list always stays as it was. *)
Theorem move_success_flags_current_page_only :
  forall (s : ItemDetails.State) (q : Query),
    In q (ItemDetails.cache s) ->
    (key q = [KStr "item_logs"; KStr (id (ItemDetails.item s))] ->
       In (invalidate q)
          (ItemDetails.cache
             (ItemDetails.state_of (settle ItemDetails.moveItemMutation Fulfilled s)))) /\
    (forall p : Z,
       key q = [KStr "items"; KPage p] ->
       ItemDetails.currentPage s = [("page", Route.JNumber p)] ->
       In (invalidate q)
          (ItemDetails.cache
             (ItemDetails.state_of (settle ItemDetails.moveItemMutation Fulfilled s)))) /\
    (forall (p : Z) (k : string),
       key q = [KStr "items"; KPage p] ->
       k <> "page" ->
       In k (map fst (ItemDetails.currentPage s)) ->
       Route.lookup k (ItemDetails.currentPage s) <> Route.JUndefined ->
       In q
          (ItemDetails.cache
             (ItemDetails.state_of (settle ItemDetails.moveItemMutation Fulfilled s)))) /\
    (forall p p' : Z,
       key q = [KStr "items"; KPage p] ->
       In "page" (map fst (ItemDetails.currentPage s)) ->
       Route.lookup "page" (ItemDetails.currentPage s) = Route.JNumber p' ->
       p' <> p ->
       In q
          (ItemDetails.cache
             (ItemDetails.state_of (settle ItemDetails.moveItemMutation Fulfilled s)))) /\
    (key q = [KStr "locations"] ->
       In q
          (ItemDetails.cache
             (ItemDetails.state_of (settle ItemDetails.moveItemMutation Fulfilled s)))).
Proof.
  intros s q Hq.
  change (ItemDetails.cache
            (ItemDetails.state_of (settle ItemDetails.moveItemMutation Fulfilled s)))
    with (invalidateMatchingWith
            [FKey (KStr "items"); FObject (ItemDetails.currentPage s)]
            (invalidateMatching [KStr "item_logs"; KStr (id (ItemDetails.item s))]
               (ItemDetails.cache s))).
  pose proof (invalidateMatching_In
                [KStr "item_logs"; KStr (id (ItemDetails.item s))] _ q Hq) as H1.
  pose proof (invalidateMatchingWith_In
                [FKey (KStr "items"); FObject (ItemDetails.currentPage s)]
                _ _ H1) as H2.
  clear H1. split; [|split; [|split; [|split]]].
  - intros Hk. rewrite Hk in H2. cbn in H2. rewrite String.eqb_refl in H2.
    cbn in H2. rewrite Hk in H2. cbn in H2. exact H2.
  - intros p Hk Hsearch. rewrite Hk in H2.
    cbn [partialMatchKey KeyPart_eqb String.eqb Ascii.eqb Bool.eqb andb] in H2.
    rewrite Hk, Hsearch, search_filter_reaches_its_page in H2.
    rewrite Hsearch. exact H2.
  - intros p k Hk Hne Hin Hv. rewrite Hk in H2.
    cbn [partialMatchKey KeyPart_eqb String.eqb Ascii.eqb Bool.eqb andb] in H2.
    rewrite Hk, (search_filter_with_other_key p _ k Hne Hin Hv) in H2. exact H2.
  - intros p p' Hk Hin Hv Hne. rewrite Hk in H2.
    cbn [partialMatchKey KeyPart_eqb String.eqb Ascii.eqb Bool.eqb andb] in H2.
    rewrite Hk in H2.
    assert (Hno : partialMatchFilter [KStr "items"; KPage p]
                    [FKey (KStr "items"); FObject (ItemDetails.currentPage s)] = false).
    { cbn. rewrite andb_true_r.
      apply in_map_iff in Hin. destruct Hin as [kv [Hfst Hkv]].
      apply (forallb_false_intro _ _ kv Hkv). rewrite Hfst, Hv.
      cbn. now apply Z.eqb_neq. }
    rewrite Hno in H2. exact H2.
  - intros Hk. rewrite Hk in H2. cbn in H2. rewrite Hk in H2. cbn in H2. exact H2.
Qed.

Lemma move_success_flags_current_page_only_witness :
  In (invalidate
        {| key := [KStr "items"; KPage 1]; state_data := ItemsData full_page;
           isInvalidated := false |})
     (ItemDetails.cache
        (ItemDetails.state_of
           (settle ItemDetails.moveItemMutation Fulfilled (details_state None)))) /\
  In {| key := [KStr "items"; KPage 1]; state_data := ItemsData full_page;
        isInvalidated := false |}
     (ItemDetails.cache
        (ItemDetails.state_of
           (settle ItemDetails.moveItemMutation Fulfilled details_state_searching))).
Proof.
  split.
  - apply (proj1 (proj2 (move_success_flags_current_page_only (details_state None) _
                           (or_introl eq_refl))) 1); reflexivity.
  - apply (proj1 (proj2 (proj2
             (move_success_flags_current_page_only details_state_searching _
                (or_introl eq_refl)))) 1 "q").
    + reflexivity.
    + discriminate.
    + left. reflexivity.
    + discriminate.
Defined.

(** ** Runs of the item details panel *)

Lemma truthy_nonempty (v : option string) (m : string) :
  ItemDetails.truthy v = Some m -> v = Some m /\ m <> "".
Proof.
  destruct v as [x|]; cbn; [|discriminate].
  destruct (String.eqb_spec x ""); [discriminate|].
  intros H. inversion H. subst. split; [reflexivity | assumption].
Qed.

Lemma moveItem_sends (l : string) (s : ItemDetails.State) :
  ItemDetails.moveItem l s =
    (tt,
     ItemDetails.with_inflight
       (ItemDetails.inflight s ++ [ItemDetails.MoveItem l]) s,
     [Request (ItemsService.moveItem (id (ItemDetails.item s)) l)]).
Proof. reflexivity. Qed.

Lemma details_run_cons_state (e : ItemDetails.Event) (es : list ItemDetails.Event)
    (s : ItemDetails.State) :
  ItemDetails.state_of (ItemDetails.run (e :: es) s) =
    ItemDetails.state_of
      (ItemDetails.run es (ItemDetails.state_of (ItemDetails.step e s))).
Proof.
  unfold ItemDetails.state_of. cbn [ItemDetails.run].
  exact (bind_state (ItemDetails.step e) (fun _ => ItemDetails.run es) s).
Qed.

Lemma details_run_cons_trace (e : ItemDetails.Event) (es : list ItemDetails.Event)
    (s : ItemDetails.State) :
  ItemDetails.trace_of (ItemDetails.run (e :: es) s) =
    (ItemDetails.trace_of (ItemDetails.step e s) ++
     ItemDetails.trace_of
       (ItemDetails.run es (ItemDetails.state_of (ItemDetails.step e s))))%list.
Proof.
  unfold ItemDetails.trace_of, ItemDetails.state_of. cbn [ItemDetails.run].
  exact (bind_trace (ItemDetails.step e) (fun _ => ItemDetails.run es) s).
Qed.

(** Closes [Forall P tr] for a trace without requests, [P] holding
    vacuously of every effect that is not a request. *)
Ltac no_requests :=
  repeat first
    [ apply Forall_nil
    | apply Forall_cons; [let H := fresh in intros H; discriminate H|] ].

Lemma sendLog_inv (s : ItemDetails.State) :
  Forall nonempty_write (ItemDetails.trace_of (ItemDetails.sendLog s)).
Proof.
  destruct (ItemDetails.truthy (ItemDetails.newLogMessage s)) as [m|] eqn:E.
  - rewrite (sendLog_with_message s m E).
    constructor; [|constructor]. intros _. left. exists (id (ItemDetails.item s)), m.
    split; [exact (proj2 (truthy_nonempty _ _ E)) | reflexivity].
  - rewrite (sendLog_without_message s E). no_requests.
Qed.

Lemma details_step_inv (e : ItemDetails.Event) (s : ItemDetails.State) :
  Forall nonempty_write (ItemDetails.trace_of (ItemDetails.step e s)).
Proof.
  destruct e as [v|k| |v| |o]; unfold ItemDetails.step, bind, get;
    cbv beta iota zeta.
  - destruct (ItemDetails.composerRendered s); constructor.
  - destruct (ItemDetails.composerRendered s); [|constructor].
    unfold ItemDetails.onKeyDown.
    destruct (String.eqb (ItemDetails.key k) "Enter" && ItemDetails.ctrlKey k);
      [|constructor].
    pose proof (sendLog_inv s) as H.
    now destruct (ItemDetails.sendLog s) as [[u s'] t].
  - destruct (ItemDetails.composerRendered s); [|constructor].
    unfold ItemDetails.onClickSend.
    pose proof (sendLog_inv s) as H.
    now destruct (ItemDetails.sendLog s) as [[u s'] t].
  - constructor.
  - unfold ItemDetails.onClickMove, bind, get. cbv beta iota zeta.
    destruct (ItemDetails.truthy (ItemDetails.newLocation s)) as [l|] eqn:E;
      [|constructor].
    rewrite moveItem_sends.
    constructor; [|constructor]. intros _. right.
    exists (id (ItemDetails.item s)), l.
    split; [exact (proj2 (truthy_nonempty _ _ E)) | reflexivity].
  - destruct (ItemDetails.inflight s) as [|p rest]; [constructor|].
    destruct p, o; cbn; no_requests.
Qed.

(** X12: whatever is typed, chosen, clicked or answered, every request the
    panel's two mutations send carries what it is about: a log is sent
    with a message that is not empty, a move with a location that is not
    empty.  (The trace holds the requests of the mutations; the reads of
    the panel's queries are not part of it.) *)
Theorem panel_writes_are_never_empty :
  forall (es : list ItemDetails.Event) (s : ItemDetails.State),
    Forall nonempty_write (ItemDetails.trace_of (ItemDetails.run es s)).
Proof.
  induction es as [|e es IH]; intros s.
  - constructor.
  - rewrite details_run_cons_trace. apply Forall_app. split.
    + apply details_step_inv.
    + apply IH.
Qed.

Lemma getQueryData_invalidateMatching (k filter : QueryKey) (c : QueryCache) :
  getQueryData k (invalidateMatching filter c) = getQueryData k c.
Proof.
  unfold invalidateMatching.
  induction c as [|q rest IH]; cbn; [reflexivity|].
  destruct (partialMatchKey (key q) filter); cbn; now rewrite IH.
Qed.

Lemma step_send_rendered (s : ItemDetails.State) :
  ItemDetails.composerRendered s = true ->
  ItemDetails.step ItemDetails.ClickSend s = ItemDetails.sendLog s.
Proof.
  intros H. unfold ItemDetails.step, bind, get. cbv beta iota zeta.
  rewrite H. unfold ItemDetails.onClickSend.
  now destruct (ItemDetails.sendLog s) as [[[] s'] t].
Qed.

(** X13: after a log was sent and accepted, the composer is empty: the log
    key is invalidated, the success notification shown, and a second send
    without typing is refused locally, so the accepted log cannot be sent
    twice by pressing send again. *)
Theorem sent_log_clears_composer :
  forall (s : ItemDetails.State) (m : string),
    ItemDetails.composerRendered s = true ->
    ItemDetails.truthy (ItemDetails.newLogMessage s) = Some m ->
    ItemDetails.inflight s = [] ->
    ItemDetails.run
      [ItemDetails.ClickSend; ItemDetails.Settled Fulfilled; ItemDetails.ClickSend] s =
      (tt,
       ItemDetails.setNewLogMessage (Some "")
         (ItemDetails.with_cache
            (invalidateMatching [KStr "item_logs"; KStr (id (ItemDetails.item s))]
               (ItemDetails.cache s)) s),
       [ Request (ItemsService.createItemLog
                    {| item_id := id (ItemDetails.item s); message := m |});
         InvalidateQueries [KStr "item_logs"; KStr (id (ItemDetails.item s))];
         ShowToast "Success!" "Log created successfully." "success";
         ConsoleLog (Error "No log message provided");
         HandleError (Error "No log message provided") ]).
Proof.
  intros s m Hr Hm Hfl.
  cbn [ItemDetails.run]. unfold bind at 1.
  rewrite (step_send_rendered s Hr), (sendLog_with_message s m Hm).
  cbv beta iota zeta. rewrite Hfl. cbn [app].
  unfold bind at 1.
  set (s2 := ItemDetails.setNewLogMessage (Some "")
         (ItemDetails.with_cache
            (invalidateMatching [KStr "item_logs"; KStr (id (ItemDetails.item s))]
               (ItemDetails.cache s)) s)).
  assert (H2 : ItemDetails.step (ItemDetails.Settled Fulfilled)
                 (ItemDetails.with_inflight [ItemDetails.SendLog] s) =
               (tt, s2,
                [InvalidateQueries [KStr "item_logs"; KStr (id (ItemDetails.item s))];
                 ShowToast "Success!" "Log created successfully." "success"])).
  { subst s2. destruct s as [i cp nl msg c fl]. cbn in Hfl. subst fl. reflexivity. }
  rewrite H2. cbv beta iota zeta.
  assert (Hr2 : ItemDetails.composerRendered s2 = true).
  { subst s2. rewrite <- Hr. unfold ItemDetails.composerRendered, ItemDetails.logsKey.
    cbn [ItemDetails.cache ItemDetails.item ItemDetails.with_cache
         ItemDetails.setNewLogMessage].
    now rewrite getQueryData_invalidateMatching. }
  unfold bind at 1. rewrite (step_send_rendered s2 Hr2).
  rewrite (sendLog_without_message s2 eq_refl). reflexivity.
Qed.

Lemma sent_log_clears_composer_witness :
  requests
    (ItemDetails.trace_of
       (ItemDetails.run
          [ItemDetails.ClickSend; ItemDetails.Settled Fulfilled; ItemDetails.ClickSend]
          (details_state (Some "moved")))) =
    [Request (ItemsService.createItemLog {| item_id := "a"; message := "moved" |})].
Proof.
  rewrite (sent_log_clears_composer (details_state (Some "moved")) "moved"
             eq_refl eq_refl eq_refl).
  reflexivity.
Defined.

(** X14: a log the server refuses stays in the composer: the error is
    logged and reported, nothing is invalidated, and pressing send again
    sends the same request once more. *)
Theorem refused_log_can_be_resent :
  forall (s : ItemDetails.State) (m : string) (err : Failure),
    ItemDetails.composerRendered s = true ->
    ItemDetails.truthy (ItemDetails.newLogMessage s) = Some m ->
    ItemDetails.inflight s = [] ->
    ItemDetails.run
      [ItemDetails.ClickSend; ItemDetails.Settled (Failed err); ItemDetails.ClickSend] s =
      (tt,
       ItemDetails.with_inflight [ItemDetails.SendLog] s,
       [ Request (ItemsService.createItemLog
                    {| item_id := id (ItemDetails.item s); message := m |});
         ConsoleLog err;
         HandleError err;
         Request (ItemsService.createItemLog
                    {| item_id := id (ItemDetails.item s); message := m |}) ]).
Proof.
  intros s m err Hr Hm Hfl.
  cbn [ItemDetails.run]. unfold bind at 1.
  rewrite (step_send_rendered s Hr), (sendLog_with_message s m Hm).
  cbv beta iota zeta. rewrite Hfl. cbn [app].
  unfold bind at 1.
  assert (H2 : ItemDetails.step (ItemDetails.Settled (Failed err))
                 (ItemDetails.with_inflight [ItemDetails.SendLog] s) =
               (tt, s, [ConsoleLog err; HandleError err])).
  { destruct s as [i cp nl msg c fl]. cbn in Hfl. subst fl. reflexivity. }
  rewrite H2. cbv beta iota zeta.
  unfold bind at 1.
  rewrite (step_send_rendered s Hr), (sendLog_with_message s m Hm).
  cbv beta iota zeta. rewrite Hfl. reflexivity.
Qed.

Lemma refused_log_can_be_resent_witness :
  ItemDetails.newLogMessage
    (ItemDetails.state_of
       (ItemDetails.run
          [ItemDetails.ClickSend; ItemDetails.Settled (Failed server_error);
           ItemDetails.ClickSend]
          (details_state (Some "moved")))) = Some "moved".
Proof.
  rewrite (refused_log_can_be_resent (details_state (Some "moved")) "moved"
             server_error eq_refl eq_refl eq_refl).
  reflexivity.
Defined.

(** X15: the Move Item button acts on the location stored by the select's
    change handler only.  While none is stored (or the stored one is the
    empty string) a click sends nothing and changes nothing; after a
    location [l] was chosen, a click sends one move of the selected item
    to [l]. *)
Theorem move_needs_a_chosen_location :
  (forall s : ItemDetails.State,
      ItemDetails.newLocation s = None \/ ItemDetails.newLocation s = Some "" ->
      ItemDetails.step ItemDetails.ClickMove s = (tt, s, [])) /\
  (forall (s : ItemDetails.State) (l : string),
      l <> "" ->
      ItemDetails.trace_of
        (ItemDetails.run [ItemDetails.SelectLocation l; ItemDetails.ClickMove] s) =
        [Request (ItemsService.moveItem (id (ItemDetails.item s)) l)] /\
      ItemDetails.inflight
        (ItemDetails.state_of
           (ItemDetails.run [ItemDetails.SelectLocation l; ItemDetails.ClickMove] s)) =
        (ItemDetails.inflight s ++ [ItemDetails.MoveItem l])%list).
Proof.
  split.
  - intros s Hloc. unfold ItemDetails.step, ItemDetails.onClickMove, bind, get.
    cbv beta iota zeta. now rewrite (truthy_empty _ Hloc).
  - intros s l Hl. destruct s as [i cp nl msg c fl].
    unfold ItemDetails.trace_of, ItemDetails.state_of, ItemDetails.run,
      ItemDetails.step, ItemDetails.onClickMove, bind, get, modify. cbn.
    destruct (String.eqb_spec l ""); [contradiction|]. split; reflexivity.
Qed.

Lemma move_needs_a_chosen_location_witness :
  ItemDetails.step ItemDetails.ClickMove
    (ItemDetails.setNewLocation None (details_state None)) =
    (tt, ItemDetails.setNewLocation None (details_state None), []) /\
  ItemDetails.trace_of
    (ItemDetails.run [ItemDetails.SelectLocation "l1"; ItemDetails.ClickMove]
       (details_state None)) =
    [Request (ItemsService.moveItem "a" "l1")].
Proof.
  destruct move_needs_a_chosen_location as [Hnone Hsome]. split.
  - apply Hnone. left. reflexivity.
  - apply (Hsome (details_state None) "l1"). discriminate.
Defined.

(** ** Table cells *)



